(** * Window Inspector (Mnemora): a shallow embedding and its properties

    The program is the Python script
    [externals/python/window_inspector/window_inspector.py].  It asks Quartz
    for the list of all windows, walks that list once, keeps the windows that
    pass a chain of guards, sorts what it kept and prints it as JSON; any
    exception inside the [try] block is answered by printing the empty array.

    Modelling choices, all visible in the definitions below:
    - a Python [str] is the list of its Unicode code points ([pystr]);
      comparison, equality, [in] and [strip] are then exactly Python's.
      [lower] follows the Unicode tables;
    - a Python value is a [pyval]; numbers are integers (sizes with a
      fraction are outside the model);
    - a [dict] is an association list in insertion order, looked up by key;
    - code that may raise returns a [result];
    - output is the list of the arguments of the [print] calls; the
      re-opening of [sys.stdout] before the [try] block and failures of
      [print] itself are not modelled. *)

From Stdlib Require Import ZArith NArith List Bool String Ascii Lia.
From Stdlib Require Import Permutation Sorted.
Import ListNotations.

Local Open Scope Z_scope.

(* ===================================================================== *)
(** ** Python strings *)
(* ===================================================================== *)

Module PyStr.

(** A [str]: its code points, in order. *)
Definition pystr := list N.

(** The script is UTF-8 encoded ([# -*- coding: utf-8 -*-]); its literals are
    written here as Rocq strings (bytes) and decoded to code points. *)
Fixpoint utf8_decode (bs : list N) : pystr :=
  (match bs with
   | [] => []
   | b0 :: r0 =>
       if b0 <? 128 then b0 :: utf8_decode r0
       else match r0 with
       | [] => [b0]
       | b1 :: r1 =>
           if b0 <? 224 then ((b0 - 192) * 64 + (b1 - 128)) :: utf8_decode r1
           else match r1 with
           | [] => [b0; b1]
           | b2 :: r2 =>
               if b0 <? 240
               then ((b0 - 224) * 4096 + (b1 - 128) * 64 + (b2 - 128))
                      :: utf8_decode r2
               else match r2 with
               | [] => [b0; b1; b2]
               | b3 :: r3 =>
                   ((b0 - 240) * 262144 + (b1 - 128) * 4096
                    + (b2 - 128) * 64 + (b3 - 128)) :: utf8_decode r3
               end
           end
       end
   end)%N.

Definition py (s : string) : pystr :=
  utf8_decode (map N_of_ascii (list_ascii_of_string s)).

(** [a == b] on strings. *)
Fixpoint str_eqb (a b : pystr) : bool :=
  match a, b with
  | [], [] => true
  | x :: a', y :: b' => N.eqb x y && str_eqb a' b'
  | _, _ => false
  end.

(** [a < b], [a == b], [a > b] on strings: lexicographic on code points. *)
Definition str_compare (a b : pystr) : comparison := list_compare N.compare a b.

(** *** [str.lower]

    [str.lower] maps every character through the Unicode lower-case
    mapping; capital sigma alone depends on its neighbours.  The three
    tables are those of Unicode 14.0, the version of CPython 3.11. *)

(** The one-to-one lower-case mappings, in ascending order: an entry
    [(lo, hi, step, target)] maps [lo], [lo + step], ... up to [hi] to
    [target], [target + step], ... *)
Definition lower_table : list (N * N * N * N) :=
  [ (65, 90, 1, 97); (192, 214, 1, 224); (216, 222, 1, 248);
    (256, 302, 2, 257); (306, 310, 2, 307); (313, 327, 2, 314);
    (330, 374, 2, 331); (376, 376, 1, 255); (377, 381, 2, 378);
    (385, 385, 1, 595); (386, 388, 2, 387); (390, 390, 1, 596);
    (391, 391, 1, 392); (393, 394, 1, 598); (395, 395, 1, 396);
    (398, 398, 1, 477); (399, 399, 1, 601); (400, 400, 1, 603);
    (401, 401, 1, 402); (403, 403, 1, 608); (404, 404, 1, 611);
    (406, 406, 1, 617); (407, 407, 1, 616); (408, 408, 1, 409);
    (412, 412, 1, 623); (413, 413, 1, 626); (415, 415, 1, 629);
    (416, 420, 2, 417); (422, 422, 1, 640); (423, 423, 1, 424);
    (425, 425, 1, 643); (428, 428, 1, 429); (430, 430, 1, 648);
    (431, 431, 1, 432); (433, 434, 1, 650); (435, 437, 2, 436);
    (439, 439, 1, 658); (440, 440, 1, 441); (444, 444, 1, 445);
    (452, 452, 1, 454); (453, 453, 1, 454); (455, 455, 1, 457);
    (456, 456, 1, 457); (458, 458, 1, 460); (459, 475, 2, 460);
    (478, 494, 2, 479); (497, 497, 1, 499); (498, 500, 2, 499);
    (502, 502, 1, 405); (503, 503, 1, 447); (504, 542, 2, 505);
    (544, 544, 1, 414); (546, 562, 2, 547); (570, 570, 1, 11365);
    (571, 571, 1, 572); (573, 573, 1, 410); (574, 574, 1, 11366);
    (577, 577, 1, 578); (579, 579, 1, 384); (580, 580, 1, 649);
    (581, 581, 1, 652); (582, 590, 2, 583); (880, 882, 2, 881);
    (886, 886, 1, 887); (895, 895, 1, 1011); (902, 902, 1, 940);
    (904, 906, 1, 941); (908, 908, 1, 972); (910, 911, 1, 973);
    (913, 929, 1, 945); (932, 939, 1, 964); (975, 975, 1, 983);
    (984, 1006, 2, 985); (1012, 1012, 1, 952); (1015, 1015, 1, 1016);
    (1017, 1017, 1, 1010); (1018, 1018, 1, 1019); (1021, 1023, 1, 891);
    (1024, 1039, 1, 1104); (1040, 1071, 1, 1072); (1120, 1152, 2, 1121);
    (1162, 1214, 2, 1163); (1216, 1216, 1, 1231); (1217, 1229, 2, 1218);
    (1232, 1326, 2, 1233); (1329, 1366, 1, 1377); (4256, 4293, 1, 11520);
    (4295, 4295, 1, 11559); (4301, 4301, 1, 11565); (5024, 5103, 1, 43888);
    (5104, 5109, 1, 5112); (7312, 7354, 1, 4304); (7357, 7359, 1, 4349);
    (7680, 7828, 2, 7681); (7838, 7838, 1, 223); (7840, 7934, 2, 7841);
    (7944, 7951, 1, 7936); (7960, 7965, 1, 7952); (7976, 7983, 1, 7968);
    (7992, 7999, 1, 7984); (8008, 8013, 1, 8000); (8025, 8031, 2, 8017);
    (8040, 8047, 1, 8032); (8072, 8079, 1, 8064); (8088, 8095, 1, 8080);
    (8104, 8111, 1, 8096); (8120, 8121, 1, 8112); (8122, 8123, 1, 8048);
    (8124, 8124, 1, 8115); (8136, 8139, 1, 8050); (8140, 8140, 1, 8131);
    (8152, 8153, 1, 8144); (8154, 8155, 1, 8054); (8168, 8169, 1, 8160);
    (8170, 8171, 1, 8058); (8172, 8172, 1, 8165); (8184, 8185, 1, 8056);
    (8186, 8187, 1, 8060); (8188, 8188, 1, 8179); (8486, 8486, 1, 969);
    (8490, 8490, 1, 107); (8491, 8491, 1, 229); (8498, 8498, 1, 8526);
    (8544, 8559, 1, 8560); (8579, 8579, 1, 8580); (9398, 9423, 1, 9424);
    (11264, 11311, 1, 11312); (11360, 11360, 1, 11361);
    (11362, 11362, 1, 619); (11363, 11363, 1, 7549); (11364, 11364, 1, 637);
    (11367, 11371, 2, 11368); (11373, 11373, 1, 593); (11374, 11374, 1, 625);
    (11375, 11375, 1, 592); (11376, 11376, 1, 594); (11378, 11378, 1, 11379);
    (11381, 11381, 1, 11382); (11390, 11391, 1, 575);
    (11392, 11490, 2, 11393); (11499, 11501, 2, 11500);
    (11506, 11506, 1, 11507); (42560, 42604, 2, 42561);
    (42624, 42650, 2, 42625); (42786, 42798, 2, 42787);
    (42802, 42862, 2, 42803); (42873, 42875, 2, 42874);
    (42877, 42877, 1, 7545); (42878, 42886, 2, 42879);
    (42891, 42891, 1, 42892); (42893, 42893, 1, 613);
    (42896, 42898, 2, 42897); (42902, 42920, 2, 42903);
    (42922, 42922, 1, 614); (42923, 42923, 1, 604); (42924, 42924, 1, 609);
    (42925, 42925, 1, 620); (42926, 42926, 1, 618); (42928, 42928, 1, 670);
    (42929, 42929, 1, 647); (42930, 42930, 1, 669); (42931, 42931, 1, 43859);
    (42932, 42946, 2, 42933); (42948, 42948, 1, 42900);
    (42949, 42949, 1, 642); (42950, 42950, 1, 7566);
    (42951, 42953, 2, 42952); (42960, 42960, 1, 42961);
    (42966, 42968, 2, 42967); (42997, 42997, 1, 42998);
    (65313, 65338, 1, 65345); (66560, 66599, 1, 66600);
    (66736, 66771, 1, 66776); (66928, 66938, 1, 66967);
    (66940, 66954, 1, 66979); (66956, 66962, 1, 66995);
    (66964, 66965, 1, 67003); (68736, 68786, 1, 68800);
    (71840, 71871, 1, 71872); (93760, 93791, 1, 93792);
    (125184, 125217, 1, 125218) ]%N.

(** The characters with the property Case_Ignorable, as ranges in
    ascending order. *)
Definition case_ignorable_table : list (N * N) :=
  [ (39, 39); (46, 46); (58, 58); (94, 94); (96, 96); (168, 168); (173, 173);
    (175, 175); (180, 180); (183, 184); (688, 879); (884, 885); (890, 890);
    (900, 901); (903, 903); (1155, 1161); (1369, 1369); (1375, 1375);
    (1425, 1469); (1471, 1471); (1473, 1474); (1476, 1477); (1479, 1479);
    (1524, 1524); (1536, 1541); (1552, 1562); (1564, 1564); (1600, 1600);
    (1611, 1631); (1648, 1648); (1750, 1757); (1759, 1768); (1770, 1773);
    (1807, 1807); (1809, 1809); (1840, 1866); (1958, 1968); (2027, 2037);
    (2042, 2042); (2045, 2045); (2070, 2093); (2137, 2139); (2184, 2184);
    (2192, 2193); (2200, 2207); (2249, 2306); (2362, 2362); (2364, 2364);
    (2369, 2376); (2381, 2381); (2385, 2391); (2402, 2403); (2417, 2417);
    (2433, 2433); (2492, 2492); (2497, 2500); (2509, 2509); (2530, 2531);
    (2558, 2558); (2561, 2562); (2620, 2620); (2625, 2626); (2631, 2632);
    (2635, 2637); (2641, 2641); (2672, 2673); (2677, 2677); (2689, 2690);
    (2748, 2748); (2753, 2757); (2759, 2760); (2765, 2765); (2786, 2787);
    (2810, 2815); (2817, 2817); (2876, 2876); (2879, 2879); (2881, 2884);
    (2893, 2893); (2901, 2902); (2914, 2915); (2946, 2946); (3008, 3008);
    (3021, 3021); (3072, 3072); (3076, 3076); (3132, 3132); (3134, 3136);
    (3142, 3144); (3146, 3149); (3157, 3158); (3170, 3171); (3201, 3201);
    (3260, 3260); (3263, 3263); (3270, 3270); (3276, 3277); (3298, 3299);
    (3328, 3329); (3387, 3388); (3393, 3396); (3405, 3405); (3426, 3427);
    (3457, 3457); (3530, 3530); (3538, 3540); (3542, 3542); (3633, 3633);
    (3636, 3642); (3654, 3662); (3761, 3761); (3764, 3772); (3782, 3782);
    (3784, 3789); (3864, 3865); (3893, 3893); (3895, 3895); (3897, 3897);
    (3953, 3966); (3968, 3972); (3974, 3975); (3981, 3991); (3993, 4028);
    (4038, 4038); (4141, 4144); (4146, 4151); (4153, 4154); (4157, 4158);
    (4184, 4185); (4190, 4192); (4209, 4212); (4226, 4226); (4229, 4230);
    (4237, 4237); (4253, 4253); (4348, 4348); (4957, 4959); (5906, 5908);
    (5938, 5939); (5970, 5971); (6002, 6003); (6068, 6069); (6071, 6077);
    (6086, 6086); (6089, 6099); (6103, 6103); (6109, 6109); (6155, 6159);
    (6211, 6211); (6277, 6278); (6313, 6313); (6432, 6434); (6439, 6440);
    (6450, 6450); (6457, 6459); (6679, 6680); (6683, 6683); (6742, 6742);
    (6744, 6750); (6752, 6752); (6754, 6754); (6757, 6764); (6771, 6780);
    (6783, 6783); (6823, 6823); (6832, 6862); (6912, 6915); (6964, 6964);
    (6966, 6970); (6972, 6972); (6978, 6978); (7019, 7027); (7040, 7041);
    (7074, 7077); (7080, 7081); (7083, 7085); (7142, 7142); (7144, 7145);
    (7149, 7149); (7151, 7153); (7212, 7219); (7222, 7223); (7288, 7293);
    (7376, 7378); (7380, 7392); (7394, 7400); (7405, 7405); (7412, 7412);
    (7416, 7417); (7468, 7530); (7544, 7544); (7579, 7679); (8125, 8125);
    (8127, 8129); (8141, 8143); (8157, 8159); (8173, 8175); (8189, 8190);
    (8203, 8207); (8216, 8217); (8228, 8228); (8231, 8231); (8234, 8238);
    (8288, 8292); (8294, 8303); (8305, 8305); (8319, 8319); (8336, 8348);
    (8400, 8432); (11388, 11389); (11503, 11505); (11631, 11631);
    (11647, 11647); (11744, 11775); (11823, 11823); (12293, 12293);
    (12330, 12333); (12337, 12341); (12347, 12347); (12441, 12446);
    (12540, 12542); (40981, 40981); (42232, 42237); (42508, 42508);
    (42607, 42610); (42612, 42621); (42623, 42623); (42652, 42655);
    (42736, 42737); (42752, 42785); (42864, 42864); (42888, 42890);
    (42994, 42996); (43000, 43001); (43010, 43010); (43014, 43014);
    (43019, 43019); (43045, 43046); (43052, 43052); (43204, 43205);
    (43232, 43249); (43263, 43263); (43302, 43309); (43335, 43345);
    (43392, 43394); (43443, 43443); (43446, 43449); (43452, 43453);
    (43471, 43471); (43493, 43494); (43561, 43566); (43569, 43570);
    (43573, 43574); (43587, 43587); (43596, 43596); (43632, 43632);
    (43644, 43644); (43696, 43696); (43698, 43700); (43703, 43704);
    (43710, 43711); (43713, 43713); (43741, 43741); (43756, 43757);
    (43763, 43764); (43766, 43766); (43867, 43871); (43881, 43883);
    (44005, 44005); (44008, 44008); (44013, 44013); (64286, 64286);
    (64434, 64450); (65024, 65039); (65043, 65043); (65056, 65071);
    (65106, 65106); (65109, 65109); (65279, 65279); (65287, 65287);
    (65294, 65294); (65306, 65306); (65342, 65342); (65344, 65344);
    (65392, 65392); (65438, 65439); (65507, 65507); (65529, 65531);
    (66045, 66045); (66272, 66272); (66422, 66426); (67456, 67461);
    (67463, 67504); (67506, 67514); (68097, 68099); (68101, 68102);
    (68108, 68111); (68152, 68154); (68159, 68159); (68325, 68326);
    (68900, 68903); (69291, 69292); (69446, 69456); (69506, 69509);
    (69633, 69633); (69688, 69702); (69744, 69744); (69747, 69748);
    (69759, 69761); (69811, 69814); (69817, 69818); (69821, 69821);
    (69826, 69826); (69837, 69837); (69888, 69890); (69927, 69931);
    (69933, 69940); (70003, 70003); (70016, 70017); (70070, 70078);
    (70089, 70092); (70095, 70095); (70191, 70193); (70196, 70196);
    (70198, 70199); (70206, 70206); (70367, 70367); (70371, 70378);
    (70400, 70401); (70459, 70460); (70464, 70464); (70502, 70508);
    (70512, 70516); (70712, 70719); (70722, 70724); (70726, 70726);
    (70750, 70750); (70835, 70840); (70842, 70842); (70847, 70848);
    (70850, 70851); (71090, 71093); (71100, 71101); (71103, 71104);
    (71132, 71133); (71219, 71226); (71229, 71229); (71231, 71232);
    (71339, 71339); (71341, 71341); (71344, 71349); (71351, 71351);
    (71453, 71455); (71458, 71461); (71463, 71467); (71727, 71735);
    (71737, 71738); (71995, 71996); (71998, 71998); (72003, 72003);
    (72148, 72151); (72154, 72155); (72160, 72160); (72193, 72202);
    (72243, 72248); (72251, 72254); (72263, 72263); (72273, 72278);
    (72281, 72283); (72330, 72342); (72344, 72345); (72752, 72758);
    (72760, 72765); (72767, 72767); (72850, 72871); (72874, 72880);
    (72882, 72883); (72885, 72886); (73009, 73014); (73018, 73018);
    (73020, 73021); (73023, 73029); (73031, 73031); (73104, 73105);
    (73109, 73109); (73111, 73111); (73459, 73460); (78896, 78904);
    (92912, 92916); (92976, 92982); (92992, 92995); (94031, 94031);
    (94095, 94111); (94176, 94177); (94179, 94180); (110576, 110579);
    (110581, 110587); (110589, 110590); (113821, 113822); (113824, 113827);
    (118528, 118573); (118576, 118598); (119143, 119145); (119155, 119170);
    (119173, 119179); (119210, 119213); (119362, 119364); (121344, 121398);
    (121403, 121452); (121461, 121461); (121476, 121476); (121499, 121503);
    (121505, 121519); (122880, 122886); (122888, 122904); (122907, 122913);
    (122915, 122916); (122918, 122922); (123184, 123197); (123566, 123566);
    (123628, 123631); (125136, 125142); (125252, 125259); (127995, 127999);
    (917505, 917505); (917536, 917631); (917760, 917999) ]%N.

(** The characters with the property Cased, as ranges in ascending order. *)
Definition cased_table : list (N * N) :=
  [ (65, 90); (97, 122); (170, 170); (181, 181); (186, 186); (192, 214);
    (216, 246); (248, 442); (444, 447); (452, 659); (661, 696); (704, 705);
    (736, 740); (837, 837); (880, 883); (886, 887); (890, 893); (895, 895);
    (902, 902); (904, 906); (908, 908); (910, 929); (931, 1013);
    (1015, 1153); (1162, 1327); (1329, 1366); (1376, 1416); (4256, 4293);
    (4295, 4295); (4301, 4301); (4304, 4346); (4349, 4351); (5024, 5109);
    (5112, 5117); (7296, 7304); (7312, 7354); (7357, 7359); (7424, 7615);
    (7680, 7957); (7960, 7965); (7968, 8005); (8008, 8013); (8016, 8023);
    (8025, 8025); (8027, 8027); (8029, 8029); (8031, 8061); (8064, 8116);
    (8118, 8124); (8126, 8126); (8130, 8132); (8134, 8140); (8144, 8147);
    (8150, 8155); (8160, 8172); (8178, 8180); (8182, 8188); (8305, 8305);
    (8319, 8319); (8336, 8348); (8450, 8450); (8455, 8455); (8458, 8467);
    (8469, 8469); (8473, 8477); (8484, 8484); (8486, 8486); (8488, 8488);
    (8490, 8493); (8495, 8500); (8505, 8505); (8508, 8511); (8517, 8521);
    (8526, 8526); (8544, 8575); (8579, 8580); (9398, 9449); (11264, 11492);
    (11499, 11502); (11506, 11507); (11520, 11557); (11559, 11559);
    (11565, 11565); (42560, 42605); (42624, 42653); (42786, 42887);
    (42891, 42894); (42896, 42954); (42960, 42961); (42963, 42963);
    (42965, 42969); (42997, 42998); (43000, 43002); (43824, 43866);
    (43868, 43880); (43888, 43967); (64256, 64262); (64275, 64279);
    (65313, 65338); (65345, 65370); (66560, 66639); (66736, 66771);
    (66776, 66811); (66928, 66938); (66940, 66954); (66956, 66962);
    (66964, 66965); (66967, 66977); (66979, 66993); (66995, 67001);
    (67003, 67004); (67456, 67456); (67459, 67461); (67463, 67504);
    (67506, 67514); (68736, 68786); (68800, 68850); (71840, 71903);
    (93760, 93823); (119808, 119892); (119894, 119964); (119966, 119967);
    (119970, 119970); (119973, 119974); (119977, 119980); (119982, 119993);
    (119995, 119995); (119997, 120003); (120005, 120069); (120071, 120074);
    (120077, 120084); (120086, 120092); (120094, 120121); (120123, 120126);
    (120128, 120132); (120134, 120134); (120138, 120144); (120146, 120485);
    (120488, 120512); (120514, 120538); (120540, 120570); (120572, 120596);
    (120598, 120628); (120630, 120654); (120656, 120686); (120688, 120712);
    (120714, 120744); (120746, 120770); (120772, 120779); (122624, 122633);
    (122635, 122654); (125184, 125251); (127280, 127305); (127312, 127337);
    (127344, 127369) ]%N.

Fixpoint in_ranges (t : list (N * N)) (c : N) : bool :=
  match t with
  | [] => false
  | (lo, hi) :: t' =>
      if (c <? lo)%N then false
      else if (c <=? hi)%N then true
      else in_ranges t' c
  end.

Definition case_ignorable (c : N) : bool := in_ranges case_ignorable_table c.

Definition cased (c : N) : bool := in_ranges cased_table c.

Fixpoint lookup_lower (t : list (N * N * N * N)) (c : N) : N :=
  match t with
  | [] => c
  | (lo, hi, step, target) :: t' =>
      if (c <? lo)%N then c
      else if ((c <=? hi) && ((c - lo) mod step =? 0))%N
           then (target + (c - lo))%N
           else lookup_lower t' c
  end.

(** The lower-case form of one character that is a single character. *)
Definition lower_cp (c : N) : N := lookup_lower lower_table c.

(** The lower-case form of one character other than capital sigma; capital
    I with dot above is the one character with a longer form. *)
Definition lower_full (c : N) : pystr :=
  if (c =? 304)%N then [105; 775]%N else [lower_cp c].

Fixpoint skip_ignorable (s : pystr) : pystr :=
  match s with
  | [] => []
  | c :: s' => if case_ignorable c then skip_ignorable s' else s
  end.

(** Capital sigma is final when, case-ignorable characters apart, a cased
    character stands before it and none stands after it.  [before] holds
    the characters before it, nearest first. *)
Definition final_sigma (before after : pystr) : bool :=
  match skip_ignorable before with
  | [] => false
  | c :: _ =>
      cased c &&
      match skip_ignorable after with
      | [] => true
      | d :: _ => negb (cased d)
      end
  end.

(** The lower-case form of the character [c] that stands between [before]
    (nearest first) and [after]. *)
Definition lower_at (before : pystr) (c : N) (after : pystr) : pystr :=
  if (c =? 931)%N
  then [if final_sigma before after then 962 else 963]%N
  else lower_full c.

Fixpoint lower_from (before s : pystr) : pystr :=
  match s with
  | [] => []
  | c :: after => lower_at before c after ++ lower_from (c :: before) after
  end.

Definition lower (s : pystr) : pystr := lower_from [] s.

(** The code points [str.strip()] removes: those for which [str.isspace]
    holds. *)
Definition isspace (c : N) : bool :=
  (((9 <=? c) && (c <=? 13)) || ((28 <=? c) && (c <=? 32))
   || (c =? 133) || (c =? 160) || (c =? 5760)
   || ((8192 <=? c) && (c <=? 8202))
   || (c =? 8232) || (c =? 8233) || (c =? 8239) || (c =? 8287)
   || (c =? 12288))%N.

Fixpoint lstrip (s : pystr) : pystr :=
  match s with
  | [] => []
  | c :: s' => if isspace c then lstrip s' else s
  end.

Definition rstrip (s : pystr) : pystr := rev (lstrip (rev s)).

Definition strip (s : pystr) : pystr := rstrip (lstrip s).

(** [a in b] on strings: [a] occurs in [b] as a contiguous run. *)
Fixpoint startswith (b a : pystr) {struct a} : bool :=
  match a, b with
  | [], _ => true
  | x :: a', y :: b' => N.eqb x y && startswith b' a'
  | _ :: _, [] => false
  end.

Fixpoint str_in (a b : pystr) : bool :=
  startswith b a ||
  match b with
  | [] => false
  | _ :: b' => str_in a b'
  end.

End PyStr.
Export PyStr.

(* ===================================================================== *)
(** ** Python values, dictionaries and exceptions *)
(* ===================================================================== *)

(** The values a window dictionary can hold.  A [dict] keeps its items in
    insertion order, which is the order [json.dumps] prints them in. *)
#[warnings="-register-all"]
Inductive pyval : Type :=
| PyNone
| PyBool (b : bool)
| PyInt (n : Z)
| PyStr (s : pystr)
| PyDict (d : list (pystr * pyval)).

Definition pydict := list (pystr * pyval).

(** The exceptions the [try] block can see; all are subclasses of
    [Exception]. *)
Inductive exn : Type :=
| ImportError
| AttributeError
| TypeError
| ValueError.

Inductive result (A : Type) : Type :=
| Ok (a : A)
| Raise (e : exn).
Arguments Ok {A} a.
Arguments Raise {A} e.

Definition bind {A B : Type} (c : result A) (k : A -> result B) : result B :=
  match c with
  | Ok a => k a
  | Raise e => Raise e
  end.

Notation "x <- c ;; k" := (bind c (fun x => k))
  (at level 61, c at next level, right associativity).

(** [d[key]] when present. *)
Fixpoint lookup (d : pydict) (key : pystr) : option pyval :=
  match d with
  | [] => None
  | (k, v) :: d' => if str_eqb k key then Some v else lookup d' key
  end.

(** [d.get(key, default)] on a dictionary. *)
Definition dict_get (d : pydict) (key : pystr) (default : pyval) : pyval :=
  match lookup d key with
  | Some v => v
  | None => default
  end.

(** [v.get(key, default)] on any value: only a [dict] has [get]. *)
Definition py_get (v : pyval) (key : pystr) (default : pyval) : result pyval :=
  match v with
  | PyDict d => Ok (dict_get d key default)
  | _ => Raise AttributeError
  end.

(** Truth value of a value, as [if], [not], [and] take it. *)
Definition truthy (v : pyval) : bool :=
  match v with
  | PyNone => false
  | PyBool b => b
  | PyInt n => negb (n =? 0)
  | PyStr s => match s with [] => false | _ => true end
  | PyDict d => match d with [] => false | _ => true end
  end.

(** [a and b]: the first operand when it is false, else the second. *)
Definition py_and (a b : pyval) : pyval := if truthy a then b else a.

(** [v in l] for a list [l] of string literals: equality with one of them. *)
Definition in_list (v : pyval) (l : list pystr) : bool :=
  match v with
  | PyStr s => existsb (str_eqb s) l
  | _ => false
  end.

(** The number behind a value that is compared with or multiplied by a
    number; [bool] is a subclass of [int], other values raise [TypeError]. *)
Definition num_of (v : pyval) : result Z :=
  match v with
  | PyInt n => Ok n
  | PyBool b => Ok (if b then 1 else 0)
  | _ => Raise TypeError
  end.

(** The string behind a value whose [lower] or [strip] method is called;
    other values have no such attribute. *)
Definition str_of (v : pyval) : result pystr :=
  match v with
  | PyStr s => Ok s
  | _ => Raise AttributeError
  end.

(* ===================================================================== *)
(** ** The two fixed lists *)
(* ===================================================================== *)

Definition important_apps : list pystr := map py
  [ "GitHub Desktop"; "github"; "GitHub";
    "Google Chrome"; "Chrome"; "chrome";
    "Visual Studio Code"; "Code"; "VSCode"; "code";
    "Visual Studio Code - Insiders";
    "Slack"; "slack";
    "Microsoft Teams"; "Teams"; "msteams";
    "Figma"; "figma";
    "Discord"; "discord";
    "Notion"; "notion";
    "Safari"; "safari";
    "Firefox"; "firefox"; "Mozilla Firefox";
    "Terminal"; "terminal";
    "iTerm2"; "iTerm"; "iTerm 2"; "iterm"; "iterm2";
    "Finder"; "finder";
    "WeChat"; "wechat"; "微信";
    "Zoom"; "zoom.us"; "zoom";
    "Skype"; "skype";
    "Microsoft PowerPoint"; "PowerPoint"; "powerpoint"; "ppt";
    "Keynote"; "keynote"; "presentation";
    "Obsidian"; "obsidian";
    "Roam Research"; "roam"; "roam research";
    "Logseq"; "logseq";
    "IntelliJ IDEA"; "intellij"; "idea";
    "PyCharm"; "pycharm";
    "Microsoft Edge"; "edge";
    "Sketch"; "sketch";
    "Adobe Photoshop"; "photoshop"; "ps";
    "Adobe Illustrator"; "illustrator"; "ai";
    "System Preferences"; "system preferences"; "settings"; "系统设置";
    "Activity Monitor"; "activity monitor";
    "Xcode"; "xcode";
    "Spotify"; "spotify";
    "Postman"; "postman";
    "Cursor"; "cursor";
    "Windsurf"; "windsurf";
    "Claude Code"; "claude-code"; "claude code";
    "Kiro"; "kiro";
    "Zen browser"; "zen browser";
    "Microsoft Word"; "Microsoft Excel";
    "Arc"; "Brave"; "Hyper"; "Alacritty"; "Warp";
    "SourceTree"; "Insomnia"; "TablePlus"; "Sequel Pro"; "DataGrip" ]%string.

Definition system_apps_to_skip : list pystr := map py
  [ "Dock"; "Spotlight"; "Control Center"; "Notification Center";
    "SystemUIServer"; "Window Server";
    "Mnemora"; "Electron"; "Mnemora - Your Second Brain";
    "ControlCenter"; "WindowManager"; "NotificationCenter";
    "AXVisualSupportAgent"; "universalaccessd"; "TextInputMenuAgent";
    "CoreLocationAgent"; "loginwindow"; "UserNotificationCenter";
    "CursorUIViewService"; "LinkedNotesUIService";
    "Open and Save Panel Service";
    "程序坞"; "通知中心"; "聚焦"; "墙纸"; "微信输入法"; "自动填充";
    "隐私与安全性" ]%string.

(** The dictionary keys the script reads. *)
Definition kCGWindowNumber : pystr := py "kCGWindowNumber".
Definition kCGWindowOwnerName : pystr := py "kCGWindowOwnerName".
Definition kCGWindowName : pystr := py "kCGWindowName".
Definition kCGWindowBounds : pystr := py "kCGWindowBounds".
Definition kCGWindowLayer : pystr := py "kCGWindowLayer".
Definition kCGWindowIsOnscreen : pystr := py "kCGWindowIsOnscreen".
Definition Width : pystr := py "Width".
Definition Height : pystr := py "Height".

(* ===================================================================== *)
(** ** The body of the window loop *)
(* ===================================================================== *)

(** The dictionary appended to [windows]. *)
Record WindowInfo : Type := mkWindowInfo {
  windowId : pyval;
  appName : pystr;
  windowTitle : pystr;
  bounds : pydict;
  isOnScreen : pyval;
  layer : pyval;
  isImportant : bool;
  area : Z
}.

(** [any(app.lower() in name.lower() or name.lower() in app.lower()
         for app in apps)] *)
Definition any_app (apps : list pystr) (name : pystr) : bool :=
  existsb (fun app => str_in (lower app) (lower name)
                      || str_in (lower name) (lower app)) apps.

Definition is_important (name : pystr) : bool := any_app important_apps name.

(** [window_title.strip() != ''] *)
Definition has_content (title : pystr) : bool :=
  negb (str_eqb (strip title) []).

(** [width > 300 and height > 200] *)
Definition is_reasonable_size (width height : Z) : bool :=
  (width >? 300) && (height >? 200).

(** [should_include = (is_important or has_content or is_reasonable_size)] *)
Definition should_include (is_important has_content is_reasonable_size : bool)
  : bool :=
  is_important || has_content || is_reasonable_size.

(** What the loop reads from a window, each with its default. *)
Definition window_num (window : pydict) : pyval :=
  dict_get window kCGWindowNumber PyNone.
Definition app_name (window : pydict) : pyval :=
  dict_get window kCGWindowOwnerName PyNone.
Definition window_title (window : pydict) : pyval :=
  dict_get window kCGWindowName (PyStr []).
Definition window_bounds (window : pydict) : pyval :=
  dict_get window kCGWindowBounds (PyDict []).
Definition window_width (window : pydict) : result pyval :=
  py_get (window_bounds window) Width (PyInt 0).
Definition window_height (window : pydict) : result pyval :=
  py_get (window_bounds window) Height (PyInt 0).
Definition window_layer (window : pydict) : pyval :=
  dict_get window kCGWindowLayer (PyInt 0).
Definition window_onscreen (window : pydict) : pyval :=
  dict_get window kCGWindowIsOnscreen (PyBool false).

(** The guards of the loop, in the order the script tests them. *)

(** [not (app_name and window_num)] *)
Definition no_identity (window : pydict) : bool :=
  negb (truthy (py_and (app_name window) (window_num window))).

(** [app_name in system_apps_to_skip] *)
Definition is_system_app (window : pydict) : bool :=
  in_list (app_name window) system_apps_to_skip.

(** [width < 50 or height < 50]; [or] does not look at [height] when the
    first test holds. *)
Definition too_small (width height : pyval) : result bool :=
  w <- num_of width ;;
  if w <? 50 then Ok true
  else h <- num_of height ;; Ok (h <? 50).

(** [layer > 200] *)
Definition high_layer (layer : pyval) : result bool :=
  l <- num_of layer ;; Ok (l >? 200).

(** [dict(bounds)]: a copy of a dictionary. *)
Definition dict_copy (v : pyval) : result pydict :=
  match v with
  | PyDict d => Ok d
  | _ => Raise TypeError
  end.

(** [continue]: nothing is appended for this window. *)
Definition continue : result (option WindowInfo) := Ok None.

(** One turn of [for i, window in enumerate(window_list)]: the entry to
    append, if any. *)
Definition loop_body (window : pydict) : result (option WindowInfo) :=
  if no_identity window then continue else
  if is_system_app window then continue else
  width <- window_width window ;;
  height <- window_height window ;;
  small <- too_small width height ;;
  if small then continue else
  high <- high_layer (window_layer window) ;;
  if high then continue else
  name <- str_of (app_name window) ;;
  title <- str_of (window_title window) ;;
  w <- num_of width ;;
  h <- num_of height ;;
  if negb (should_include (is_important name) (has_content title)
                          (is_reasonable_size w h))
  then continue else
  d <- dict_copy (window_bounds window) ;;
  Ok (Some {| windowId := window_num window;
              appName := name;
              windowTitle := title;
              bounds := d;
              isOnScreen := window_onscreen window;
              layer := window_layer window;
              isImportant := is_important name;
              area := w * h |}).

(** The [for] loop: [windows] grows by [append]. *)
Fixpoint for_loop (window_list : list pydict) (windows : list WindowInfo)
  : result (list WindowInfo) :=
  match window_list with
  | [] => Ok windows
  | window :: rest =>
      r <- loop_body window ;;
      for_loop rest (match r with
                     | Some window_info => windows ++ [window_info]
                     | None => windows
                     end)
  end.

(* ===================================================================== *)
(** ** Sorting and printing *)
(* ===================================================================== *)

(** [list.sort(key=...)] is a stable sort that compares keys with [<].  It
    is modelled by a stable insertion sort; [StableSort.sort_unique] below
    shows that a sorted and stable rearrangement of a list is unique, so the
    list computed here is the one any stable sort returns. *)
Module StableSort.
Section Sort.
Context {A K : Type}.
Variable key : A -> K.
Variable cmp : K -> K -> comparison.

(** [key(a) < key(b)], the only comparison the sort makes. *)
Definition lt (a b : A) : bool :=
  match cmp (key a) (key b) with Lt => true | _ => false end.

(** [key(a) == k] *)
Definition same_key (k : K) (a : A) : bool :=
  match cmp (key a) k with Eq => true | _ => false end.

(** [x], which stood before every entry of the sorted list [l], goes in
    after the entries with a smaller key and before those with an equal
    one. *)
Fixpoint insert (x : A) (l : list A) : list A :=
  match l with
  | [] => [x]
  | y :: l' => if lt y x then y :: insert x l' else x :: y :: l'
  end.

Definition sort (l : list A) : list A := fold_right insert [] l.

(** [a] may stand before [b]: [b < a] does not hold. *)
Definition le (a b : A) : Prop := lt b a = false.
End Sort.
End StableSort.

(** The key of [windows.sort]: [(not x['isImportant'], x['appName'])]. *)
Definition sort_key (x : WindowInfo) : bool * pystr :=
  (negb (isImportant x), appName x).

(** Comparison of two booleans: [False < True]. *)
Definition bool_compare (a b : bool) : comparison :=
  match a, b with
  | false, true => Lt
  | true, false => Gt
  | _, _ => Eq
  end.

(** Comparison of two key tuples: by first components, then by second. *)
Definition key_compare (a b : bool * pystr) : comparison :=
  match bool_compare (fst a) (fst b) with
  | Eq => str_compare (snd a) (snd b)
  | c => c
  end.

Definition windows_sort (windows : list WindowInfo) : list WindowInfo :=
  StableSort.sort sort_key key_compare windows.

(** What the import and the call of [CGWindowListCopyWindowInfo] give: no
    Quartz module at all, or the window list, which is [None] when the
    window server returns no list. *)
Inductive Quartz : Type :=
| NoQuartz
| WindowList (window_list : option (list pydict)).

Definition CGWindowListCopyWindowInfo (q : Quartz)
  : result (option (list pydict)) :=
  match q with
  | NoQuartz => Raise ImportError
  | WindowList window_list => Ok window_list
  end.

(** [enumerate(window_list)]: [None] is not iterable. *)
Definition enumerate (window_list : option (list pydict))
  : result (list pydict) :=
  match window_list with
  | Some l => Ok l
  | None => Raise TypeError
  end.

(** The [try] block up to and including the sort. *)
Definition sorted_windows (q : Quartz) : result (list WindowInfo) :=
  window_list <- CGWindowListCopyWindowInfo q ;;
  ws <- enumerate window_list ;;
  windows <- for_loop ws [] ;;
  Ok (windows_sort windows).

(** What the process leaves behind: the arguments of its [print] calls, in
    order, and its exit status. *)
Record Outcome : Type := mkOutcome {
  stdout : list pystr;
  exit_status : Z
}.

Section Main.
(** [json.dumps(windows, indent=2, ensure_ascii=False)]: the text, or the
    exception it raises. *)
Variable json_dumps : list WindowInfo -> result pystr.

Definition try_block (q : Quartz) : result pystr :=
  windows <- sorted_windows q ;;
  json_dumps windows.

Definition main (q : Quartz) : Outcome :=
  match try_block q with
  | Ok text => {| stdout := [text]; exit_status := 0 |}
  | Raise ImportError => {| stdout := [py "[]"]; exit_status := 0 |}
  | Raise _ => {| stdout := [py "[]"]; exit_status := 0 |}
  end.
End Main.

(* ===================================================================== *)
(** ** Sample windows *)
(* ===================================================================== *)

(** A window dictionary with every key present, as Quartz gives it. *)
Definition sample_window (id : Z) (app title : string) (w h l : Z) : pydict :=
  [ (kCGWindowNumber, PyInt id);
    (kCGWindowOwnerName, PyStr (py app));
    (kCGWindowName, PyStr (py title));
    (kCGWindowBounds,
      PyDict [ (py "X", PyInt 0); (py "Y", PyInt 0);
               (Width, PyInt w); (Height, PyInt h) ]);
    (kCGWindowLayer, PyInt l);
    (kCGWindowIsOnscreen, PyBool true) ].

(** The same window without the listed key. *)
Definition without (key : pystr) (d : pydict) : pydict :=
  filter (fun kv => negb (str_eqb (fst kv) key)) d.

(* ===================================================================== *)
(** ** Vocabulary of the properties *)
(* ===================================================================== *)

(** [a] occurs in [b]: the meaning of [a in b]. *)
Definition substring (a b : pystr) : Prop :=
  exists l r, b = l ++ a ++ r.

(** The loop appends [info] for [window], or appends nothing for it. *)
Definition emits (window : pydict) (info : WindowInfo) : Prop :=
  loop_body window = Ok (Some info).
Definition drops (window : pydict) : Prop :=
  loop_body window = Ok None.

(** The numbers and strings the loop finds in a window. *)
Definition has_width (window : pydict) (w : Z) : Prop :=
  exists v, window_width window = Ok v /\ num_of v = Ok w.
Definition has_height (window : pydict) (h : Z) : Prop :=
  exists v, window_height window = Ok v /\ num_of v = Ok h.
Definition has_layer (window : pydict) (l : Z) : Prop :=
  num_of (window_layer window) = Ok l.
Definition has_name (window : pydict) (name : pystr) : Prop :=
  app_name window = PyStr name.
Definition has_title (window : pydict) (title : pystr) : Prop :=
  window_title window = PyStr title.

(** A window as the window server documents it: every key is either absent
    or holds a value of its type. *)
Definition is_int (v : pyval) : bool :=
  match v with PyInt _ => true | _ => false end.
Definition is_str (v : pyval) : bool :=
  match v with PyStr _ => true | _ => false end.
Definition is_bool (v : pyval) : bool :=
  match v with PyBool _ => true | _ => false end.

Definition absent_or (p : pyval -> bool) (o : option pyval) : bool :=
  match o with
  | None => true
  | Some v => p v
  end.

Definition is_bounds (v : pyval) : bool :=
  match v with
  | PyDict d =>
      absent_or is_int (lookup d Width) && absent_or is_int (lookup d Height)
  | _ => false
  end.

Definition well_formed (window : pydict) : bool :=
  absent_or is_int (lookup window kCGWindowNumber)
  && absent_or is_str (lookup window kCGWindowOwnerName)
  && absent_or is_str (lookup window kCGWindowName)
  && absent_or is_bounds (lookup window kCGWindowBounds)
  && absent_or is_int (lookup window kCGWindowLayer)
  && absent_or is_bool (lookup window kCGWindowIsOnscreen).

(** A character that [lower] leaves as it is, wherever it stands. *)
Definition is_lower (d : N) : bool :=
  (negb (d =? 931) && negb (d =? 304) && (lower_cp d =? d))%N.

(** The characters an entry of the lower-case table maps to. *)
Definition entry_targets (e : N * N * N * N) : list N :=
  let '(lo, hi, step, target) := e in
  map (fun k => (target + step * N.of_nat k)%N)
      (seq 0 (S (N.to_nat ((hi - lo) / step)))).

(** The two components of the sort key, as tests on an entry. *)
Definition with_key (important : bool) (name : pystr) (x : WindowInfo) : bool :=
  Bool.eqb (isImportant x) important && str_eqb (appName x) name.

(** Entry [x] stands somewhere before entry [y] in list [l]. *)
Definition before (x y : WindowInfo) (l : list WindowInfo) : Prop :=
  exists l1 l2 l3, l = l1 ++ x :: l2 ++ y :: l3.

(** Entry [x] may stand before entry [y]: an important entry never follows
    an entry that is not, and of two entries with the same flag the first
    does not have the greater name. *)
Definition in_order (x y : WindowInfo) : Prop :=
  (isImportant y = true -> isImportant x = true) /\
  (isImportant x = isImportant y ->
   str_compare (appName x) (appName y) <> Gt).

(** Three windows of one desktop: a chat window without title, the Dock,
    and a small window of an unknown application that has a title; then two
    more windows of applications already seen. *)
Definition sample_desktop : list pydict :=
  [ sample_window 5 "Slack" "" 400 300 0;
    sample_window 6 "Dock" "" 1000 50 0;
    sample_window 7 "Unknown" "Report.pdf" 200 150 0;
    sample_window 8 "Arc" "News" 200 150 0;
    sample_window 9 "Slack" "general" 200 150 0;
    sample_window 10 "Unknown" "Notes.txt" 200 150 0 ].

(** A desktop whose second window has [None] for a title: [strip] raises
    on it after the first window has been kept. *)
Definition broken_desktop : list pydict :=
  [ sample_window 5 "Slack" "general" 400 300 0;
    [ (kCGWindowNumber, PyInt 6);
      (kCGWindowOwnerName, PyStr (py "Notes"));
      (kCGWindowName, PyNone);
      (kCGWindowBounds, PyDict [ (Width, PyInt 400); (Height, PyInt 300) ]);
      (kCGWindowLayer, PyInt 0) ] ].

(** A printer that cannot serialise what it is given. *)
Definition dumps_raises (windows : list WindowInfo) : result pystr :=
  Raise TypeError.

(** A window dictionary with the five keys the guards read, holding
    arbitrary values. *)
Definition raw_window (num name title bounds layer : pyval) : pydict :=
  [ (kCGWindowNumber, num);
    (kCGWindowOwnerName, name);
    (kCGWindowName, title);
    (kCGWindowBounds, bounds);
    (kCGWindowLayer, layer) ].

(** A bounds dictionary of the given width and height. *)
Definition size (w h : pyval) : pyval :=
  PyDict [ (Width, w); (Height, h) ].

(** What the loop keeps of a list of windows when no turn raises. *)
Definition kept_of (ws : list pydict) : list WindowInfo :=
  match for_loop ws [] with
  | Ok kept => kept
  | Raise _ => []
  end.

(** Closes a goal about given windows and names by running the model;
    goals with variables are left alone. *)
Ltac by_computation :=
  lazymatch goal with
  | |- forall _, _ => fail
  | |- exists _, _ /\ _ => eexists; split; vm_compute; reflexivity
  | |- exists _, _ => eexists; vm_compute; reflexivity
  | |- _ = _ => vm_compute; reflexivity
  | |- drops _ => vm_compute; reflexivity
  end.

(* ===================================================================== *)
(** ** Facts about strings *)
(* ===================================================================== *)

Lemma str_eqb_eq (a b : pystr) : str_eqb a b = true <-> a = b.
Proof.
  revert b; induction a as [|x a IH]; intros [|y b]; simpl;
    try (split; (discriminate || reflexivity)).
  rewrite andb_true_iff, N.eqb_eq, IH.
  split; [intros [-> ->]; reflexivity | intros [= -> ->]; auto].
Qed.

Lemma str_eqb_refl (a : pystr) : str_eqb a a = true.
Proof. apply str_eqb_eq; reflexivity. Qed.

Lemma str_eqb_neq (a b : pystr) : str_eqb a b = false <-> a <> b.
Proof.
  rewrite <- str_eqb_eq. destruct (str_eqb a b); split; congruence.
Qed.

Lemma startswith_spec (a b : pystr) :
  startswith b a = true <-> exists r, b = a ++ r.
Proof.
  revert b; induction a as [|x a IH]; intros b; simpl.
  - split; [exists b; reflexivity | reflexivity].
  - destruct b as [|y b].
    + split; [discriminate | intros [r H]; discriminate].
    + rewrite andb_true_iff, N.eqb_eq, IH. split.
      * intros [-> [r ->]]. exists r; reflexivity.
      * intros [r [= -> ->]]. split; [reflexivity | exists r; reflexivity].
Qed.

Lemma str_in_spec (a b : pystr) : str_in a b = true <-> substring a b.
Proof.
  unfold substring. induction b as [|y b IH]; simpl.
  - rewrite orb_false_r, startswith_spec. split.
    + intros [r H]. exists [], r. exact H.
    + intros [l [r H]]. destruct l; simpl in H.
      * exists r; exact H.
      * discriminate.
  - rewrite orb_true_iff, startswith_spec, IH. split.
    + intros [[r H] | [l [r H]]].
      * exists [], r. exact H.
      * exists (y :: l), r. simpl. rewrite H. reflexivity.
    + intros [[|z l] [r H]]; simpl in H.
      * left. exists r. exact H.
      * right. injection H as _ H. exists l, r. exact H.
Qed.

Lemma substring_refl (a : pystr) : substring a a.
Proof. exists [], []. rewrite app_nil_r. reflexivity. Qed.

Lemma lstrip_nil (s : pystr) : lstrip s = [] <-> forallb isspace s = true.
Proof.
  induction s as [|c s IH]; simpl; [tauto|].
  destruct (isspace c); simpl; [exact IH | split; discriminate].
Qed.

(** The stripped title is empty exactly when every character is white
    space. *)
Lemma strip_nil (s : pystr) : strip s = [] <-> forallb isspace s = true.
Proof.
  unfold strip, rstrip. split.
  - intros H. apply lstrip_nil.
    destruct (lstrip s) as [|c t] eqn:E; [reflexivity|].
    assert (Hr : lstrip (rev (c :: t)) = []).
    { apply (f_equal (@rev N)) in H. rewrite rev_involutive in H. exact H. }
    apply lstrip_nil in Hr.
    rewrite forallb_forall in Hr.
    assert (Hc : isspace c = true) by (apply Hr, in_rev; rewrite rev_involutive; left; reflexivity).
    destruct s as [|c0 s]; [discriminate|]. simpl in E.
    destruct (isspace c0) eqn:E0.
    + clear -E Hc. induction s as [|d s IH]; simpl in E; [discriminate|].
      destruct (isspace d) eqn:Ed; [auto|]. congruence.
    + congruence.
  - intros H. apply lstrip_nil in H. rewrite H. reflexivity.
Qed.

Lemma has_content_spec (title : pystr) :
  has_content title = true <-> exists c, In c title /\ isspace c = false.
Proof.
  unfold has_content. rewrite negb_true_iff, str_eqb_neq, strip_nil.
  split.
  - intros H. induction title as [|c t IH]; simpl in H; [congruence|].
    destruct (isspace c) eqn:E.
    + destruct (IH H) as [d [Hin Hd]]. exists d; split; [right|]; assumption.
    + exists c; split; [left; reflexivity | exact E].
  - intros [c [Hin Hc]] H. rewrite forallb_forall in H.
    rewrite (H c Hin) in Hc. discriminate.
Qed.

(* ===================================================================== *)
(** ** Facts about the stable sort *)
(* ===================================================================== *)

Module StableSortFacts.
Import StableSort.
Section Facts.
Context {A K : Type}.
Variable key : A -> K.
Variable cmp : K -> K -> comparison.
Hypothesis cmp_eq : forall a b, cmp a b = Eq <-> a = b.
Hypothesis cmp_antisym : forall a b, cmp b a = CompOpp (cmp a b).
Hypothesis cmp_trans :
  forall a b c, cmp a b = Lt -> cmp b c = Lt -> cmp a c = Lt.

Local Abbreviation lt := (lt key cmp).
Local Abbreviation le := (le key cmp).
Local Abbreviation same_key := (same_key key cmp).
Local Abbreviation insert := (insert key cmp).
Local Abbreviation sort := (sort key cmp).

Lemma cmp_refl (k : K) : cmp k k = Eq.
Proof. apply cmp_eq; reflexivity. Qed.

Lemma le_refl (a : A) : le a a.
Proof. unfold StableSort.le, StableSort.lt. rewrite cmp_refl. reflexivity. Qed.

Lemma lt_le (a b : A) : lt a b = true -> le a b.
Proof.
  unfold StableSort.le, StableSort.lt. rewrite (cmp_antisym (key a) (key b)).
  destruct (cmp (key a) (key b)); simpl; congruence.
Qed.

Lemma le_trans (a b c : A) : le a b -> le b c -> le a c.
Proof.
  unfold StableSort.le, StableSort.lt. intros Hab Hbc.
  destruct (cmp (key c) (key a)) eqn:Hca; try reflexivity. exfalso.
  rewrite (cmp_antisym (key a) (key b)) in Hab.
  destruct (cmp (key a) (key b)) eqn:E; simpl in Hab; try discriminate.
  - apply cmp_eq in E. rewrite <- E, Hca in Hbc. discriminate.
  - rewrite (cmp_trans _ _ _ Hca E) in Hbc. discriminate.
Qed.

Lemma le_antisym (a b : A) : le a b -> le b a -> key a = key b.
Proof.
  unfold StableSort.le, StableSort.lt. intros Hab Hba. apply cmp_eq.
  rewrite (cmp_antisym (key a) (key b)) in Hab.
  destruct (cmp (key a) (key b)); simpl in *; congruence.
Qed.

Lemma same_key_spec (k : K) (a : A) : same_key k a = true <-> key a = k.
Proof.
  unfold StableSort.same_key. rewrite <- cmp_eq.
  destruct (cmp (key a) k); split; congruence.
Qed.

Lemma insert_perm (x : A) (l : list A) : Permutation (insert x l) (x :: l).
Proof.
  induction l as [|y l IH]; simpl; [reflexivity|].
  destruct (lt y x); [|reflexivity].
  rewrite IH. apply perm_swap.
Qed.

Lemma sort_perm (l : list A) : Permutation (sort l) l.
Proof.
  induction l as [|x l IH]; simpl; [reflexivity|].
  rewrite insert_perm, IH. reflexivity.
Qed.

Lemma insert_sorted (x : A) (l : list A) :
  StronglySorted le l -> StronglySorted le (insert x l).
Proof.
  induction 1 as [|y l Hs IH Hy]; simpl.
  - constructor; constructor.
  - destruct (lt y x) eqn:E.
    + constructor; [exact IH|].
      apply (Permutation_Forall (Permutation_sym (insert_perm x l))).
      constructor; [apply lt_le, E | exact Hy].
    + constructor; [constructor; assumption|].
      constructor; [exact E|].
      eapply Forall_impl; [|exact Hy].
      intros z Hz. apply (le_trans x y z); [exact E | exact Hz].
Qed.

Lemma sort_sorted (l : list A) : StronglySorted le (sort l).
Proof.
  induction l as [|x l IH]; simpl; [constructor | apply insert_sorted, IH].
Qed.

Lemma filter_insert (k : K) (x : A) (l : list A) :
  filter (same_key k) (insert x l) = filter (same_key k) (x :: l).
Proof.
  induction l as [|y l IH]; simpl; [reflexivity|].
  destruct (lt y x) eqn:E; [|reflexivity].
  simpl. rewrite IH. simpl.
  destruct (same_key k x) eqn:Ex; [|reflexivity].
  assert (Hy : same_key k y = false).
  { apply same_key_spec in Ex. unfold StableSort.same_key.
    unfold StableSort.lt in E. rewrite Ex in E.
    destruct (cmp (key y) k); congruence. }
  rewrite Hy. reflexivity.
Qed.

(** Stability: the entries with one key come out in the order they went
    in. *)
Lemma sort_stable (k : K) (l : list A) :
  filter (same_key k) (sort l) = filter (same_key k) l.
Proof.
  induction l as [|x l IH]; simpl; [reflexivity|].
  rewrite filter_insert. simpl. rewrite IH. reflexivity.
Qed.

(** Two sorted lists with the same entries in the same order under every
    key are the same list. *)
Lemma sort_unique (l1 l2 : list A) :
  StronglySorted le l1 -> StronglySorted le l2 ->
  (forall k, filter (same_key k) l1 = filter (same_key k) l2) ->
  l1 = l2.
Proof.
  intros H1; revert l2.
  induction H1 as [|x t1 Hs1 IH Hx]; intros l2 H2 Hf.
  - destruct l2 as [|y t2]; [reflexivity|].
    specialize (Hf (key y)). simpl in Hf.
    rewrite (proj2 (same_key_spec (key y) y) eq_refl) in Hf. discriminate.
  - destruct H2 as [|y t2 Hs2 Hy].
    + specialize (Hf (key x)). simpl in Hf.
      rewrite (proj2 (same_key_spec (key x) x) eq_refl) in Hf. discriminate.
    + assert (Hxy : le y x).
      { assert (Hin : In x (filter (same_key (key x)) (y :: t2))).
        { rewrite <- Hf. simpl.
          rewrite (proj2 (same_key_spec (key x) x) eq_refl). left; reflexivity. }
        apply filter_In in Hin. destruct Hin as [[->|Hin] _].
        - apply le_refl.
        - rewrite Forall_forall in Hy. apply Hy, Hin. }
      assert (Hyx : le x y).
      { assert (Hin : In y (filter (same_key (key y)) (x :: t1))).
        { rewrite Hf. simpl.
          rewrite (proj2 (same_key_spec (key y) y) eq_refl). left; reflexivity. }
        apply filter_In in Hin. destruct Hin as [[->|Hin] _].
        - apply le_refl.
        - rewrite Forall_forall in Hx. apply Hx, Hin. }
      assert (Hk : key x = key y) by (apply le_antisym; assumption).
      assert (Heq : x = y).
      { specialize (Hf (key x)). simpl in Hf.
        rewrite (proj2 (same_key_spec (key x) x) eq_refl) in Hf.
        rewrite (proj2 (same_key_spec (key x) y) (eq_sym Hk)) in Hf.
        congruence. }
      subst y. f_equal. apply IH; [exact Hs2|].
      intros k. specialize (Hf k). simpl in Hf.
      destruct (same_key k x); congruence.
Qed.
End Facts.
End StableSortFacts.

(** The key comparison is a total order on keys. *)
Lemma N_compare_trans (x y z : N) (c : comparison) :
  N.compare x y = c -> N.compare y z = c -> N.compare x z = c.
Proof.
  destruct c; intros H1 H2.
  - apply N.compare_eq_iff in H1, H2. subst. apply N.compare_refl.
  - rewrite N.compare_lt_iff in *. lia.
  - rewrite N.compare_gt_iff in *. lia.
Qed.

Lemma str_compare_eq (a b : pystr) : str_compare a b = Eq <-> a = b.
Proof. apply list_compare_refl, N.compare_eq_iff. Qed.

Lemma str_compare_antisym (a b : pystr) :
  str_compare b a = CompOpp (str_compare a b).
Proof.
  apply list_compare_antisym; [apply N.compare_eq_iff|].
  intros x y. apply N.compare_antisym.
Qed.

Lemma str_compare_trans (a b c : pystr) :
  str_compare a b = Lt -> str_compare b c = Lt -> str_compare a c = Lt.
Proof.
  apply list_compare_trans.
  - apply N.compare_eq_iff.
  - apply N_compare_trans.
  - intros x y. apply N.compare_antisym.
Qed.

Lemma key_compare_eq (a b : bool * pystr) : key_compare a b = Eq <-> a = b.
Proof.
  destruct a as [[|] a], b as [[|] b]; unfold key_compare; simpl;
    try rewrite str_compare_eq; split; congruence.
Qed.

Lemma key_compare_antisym (a b : bool * pystr) :
  key_compare b a = CompOpp (key_compare a b).
Proof.
  destruct a as [[|] a], b as [[|] b]; unfold key_compare; simpl;
    try apply str_compare_antisym; reflexivity.
Qed.

Lemma key_compare_trans (a b c : bool * pystr) :
  key_compare a b = Lt -> key_compare b c = Lt -> key_compare a c = Lt.
Proof.
  destruct a as [[|] a], b as [[|] b], c as [[|] c]; unfold key_compare; simpl;
    try apply str_compare_trans; congruence.
Qed.

(* ===================================================================== *)
(** ** Facts about the loop *)
(* ===================================================================== *)

Lemma truthy_py_and (a b : pyval) :
  truthy (py_and a b) = truthy a && truthy b.
Proof. unfold py_and. destruct (truthy a) eqn:E; [reflexivity | exact E]. Qed.

Lemma no_identity_drops (window : pydict) :
  no_identity window = true -> drops window.
Proof. unfold drops, loop_body. intros ->. reflexivity. Qed.

Lemma is_system_app_drops (window : pydict) :
  is_system_app window = true -> drops window.
Proof.
  unfold drops, loop_body. intros ->. destruct (no_identity window); reflexivity.
Qed.

Lemma in_list_spec (v : pyval) (l : list pystr) :
  in_list v l = true <-> exists s, v = PyStr s /\ In s l.
Proof.
  destruct v; simpl;
    try (split; [discriminate | intros [s0 [H _]]; discriminate]).
  rewrite existsb_exists. split.
  - intros [x [Hin Hx]]. apply str_eqb_eq in Hx. subst x. eauto.
  - intros [s0 [[= <-] Hin]]. exists s. split; [exact Hin | apply str_eqb_refl].
Qed.

(** What one turn of the loop does with a window whose size, layer, name and
    title have the expected types. *)
Lemma loop_body_typed (window : pydict) (w h l : Z) (name title : pystr) :
  has_width window w -> has_height window h -> has_layer window l ->
  has_name window name -> has_title window title ->
  exists d, window_bounds window = PyDict d /\
  loop_body window =
  Ok (if no_identity window || is_system_app window
         || (w <? 50) || (h <? 50) || (l >? 200)
         || negb (should_include (is_important name) (has_content title)
                                 (is_reasonable_size w h))
      then None
      else Some {| windowId := window_num window;
                   appName := name;
                   windowTitle := title;
                   bounds := d;
                   isOnScreen := window_onscreen window;
                   layer := window_layer window;
                   isImportant := is_important name;
                   area := w * h |}).
Proof.
  intros [wv [Hw Hwn]] [hv [Hh Hhn]] Hl Hn Ht.
  unfold has_layer, has_name, has_title in *.
  assert (Hd : exists d, window_bounds window = PyDict d).
  { unfold window_width, py_get in Hw.
    destruct (window_bounds window); try discriminate. eauto. }
  destruct Hd as [d Hd]. exists d. split; [exact Hd|].
  unfold loop_body, continue, too_small, high_layer.
  destruct (no_identity window); [reflexivity|].
  destruct (is_system_app window); [reflexivity|].
  rewrite Hw, Hh. cbn [bind]. rewrite Hwn. cbn [bind].
  destruct (w <? 50); [reflexivity|].
  rewrite Hhn. cbn [bind].
  destruct (h <? 50); [reflexivity|].
  rewrite Hl. cbn [bind].
  destruct (l >? 200); [reflexivity|].
  rewrite Hn, Ht. cbn [bind str_of].
  destruct (should_include _ _ _); [|reflexivity].
  cbn [negb orb]. rewrite Hd. reflexivity.
Qed.

(** An emitted entry was built from a window that passed every guard. *)
Lemma emits_inv (window : pydict) (info : WindowInfo) :
  emits window info ->
  exists w h l d,
    has_width window w /\ has_height window h /\ has_layer window l /\
    has_name window (appName info) /\ has_title window (windowTitle info) /\
    window_bounds window = PyDict d /\
    no_identity window = false /\ is_system_app window = false /\
    50 <= w /\ 50 <= h /\ l <= 200 /\
    should_include (is_important (appName info))
                   (has_content (windowTitle info))
                   (is_reasonable_size w h) = true /\
    info = {| windowId := window_num window;
              appName := appName info;
              windowTitle := windowTitle info;
              bounds := d;
              isOnScreen := window_onscreen window;
              layer := window_layer window;
              isImportant := is_important (appName info);
              area := w * h |}.
Proof.
  unfold emits, loop_body, continue, too_small, high_layer.
  destruct (no_identity window) eqn:Eid; [discriminate|].
  destruct (is_system_app window) eqn:Esys; [discriminate|].
  destruct (window_width window) as [wv|] eqn:Ew; [|discriminate].
  destruct (window_height window) as [hv|] eqn:Eh; [|discriminate].
  simpl.
  destruct (num_of wv) as [w|] eqn:Ewn; [|discriminate]. simpl.
  destruct (w <? 50) eqn:Ew50; [discriminate|].
  destruct (num_of hv) as [h|] eqn:Ehn; [|discriminate]. simpl.
  destruct (h <? 50) eqn:Eh50; [discriminate|].
  destruct (num_of (window_layer window)) as [l|] eqn:El; [|discriminate]. simpl.
  destruct (l >? 200) eqn:El200; [discriminate|].
  destruct (app_name window) as [| | |name|] eqn:En; try discriminate.
  destruct (window_title window) as [| | |title|] eqn:Et; try discriminate.
  simpl.
  destruct (should_include _ _ _) eqn:Ekeep; [|discriminate]. simpl.
  destruct (window_bounds window) as [| | | |d] eqn:Ed; try discriminate. simpl.
  intros [= <-]. simpl.
  exists w, h, l, d. unfold has_width, has_height, has_layer, has_name, has_title.
  rewrite Ew, Eh, En, Et.
  repeat split; eauto; lia.
Qed.

Lemma for_loop_acc (ws : list pydict) (acc : list WindowInfo) :
  for_loop ws acc =
  match for_loop ws [] with
  | Ok kept => Ok (acc ++ kept)
  | Raise e => Raise e
  end.
Proof.
  revert acc. induction ws as [|window rest IH]; intros acc; simpl.
  - rewrite app_nil_r. reflexivity.
  - destruct (loop_body window) as [r|e]; simpl; [|reflexivity].
    rewrite IH. rewrite (IH (match r with Some i => [i] | None => [] end)).
    destruct (for_loop rest []) as [kept|e]; [|reflexivity].
    destruct r; [rewrite <- app_assoc|]; reflexivity.
Qed.

(** The loop keeps, in input order, what each turn emits. *)
Lemma for_loop_cons (window : pydict) (rest : list pydict) :
  for_loop (window :: rest) [] =
  (r <- loop_body window ;;
   kept <- for_loop rest [] ;;
   Ok (match r with Some info => info :: kept | None => kept end)).
Proof.
  simpl. destruct (loop_body window) as [r|e]; simpl; [|reflexivity].
  rewrite for_loop_acc. destruct (for_loop rest []); [|reflexivity].
  destruct r; reflexivity.
Qed.

(** One raising turn makes the whole loop raise. *)
Lemma for_loop_raises (ws : list pydict) (window : pydict) (e : exn) :
  In window ws -> loop_body window = Raise e ->
  exists e', for_loop ws [] = Raise e'.
Proof.
  induction ws as [|w0 rest IH]; intros Hin He; [destruct Hin|].
  rewrite for_loop_cons.
  destruct Hin as [->|Hin].
  - rewrite He. exists e. reflexivity.
  - destruct (loop_body w0) as [r|e0]; simpl; [|eauto].
    destruct (IH Hin He) as [e' ->]. exists e'. reflexivity.
Qed.

(** When no turn raises the loop does not raise. *)
Lemma for_loop_returns (ws : list pydict) :
  Forall (fun window => exists r, loop_body window = Ok r) ws ->
  exists kept, for_loop ws [] = Ok kept.
Proof.
  induction 1 as [|window rest [r Hr] _ [kept IH]].
  - exists []. reflexivity.
  - rewrite for_loop_cons, Hr, IH. simpl. eauto.
Qed.

(** Every kept entry was emitted for some window of the list. *)
Lemma for_loop_In (ws : list pydict) (kept : list WindowInfo) (info : WindowInfo) :
  for_loop ws [] = Ok kept -> In info kept ->
  exists window, In window ws /\ emits window info.
Proof.
  revert kept. induction ws as [|w0 rest IH]; intros kept.
  - simpl. intros [= <-] [].
  - rewrite for_loop_cons.
    destruct (loop_body w0) as [r|e] eqn:E0; simpl; [|discriminate].
    destruct (for_loop rest []) as [k|e]; simpl; [|discriminate].
    intros [= <-] Hin.
    assert (Hcase : (r = Some info) \/ In info k).
    { destruct r as [i|]; [destruct Hin as [->|Hin]|]; auto. }
    destruct Hcase as [->|Hk].
    + exists w0. split; [left; reflexivity | exact E0].
    + destruct (IH k eq_refl Hk) as [window [Hw He]].
      exists window. split; [right; exact Hw | exact He].
Qed.

(** Every emitted entry is kept. *)
Lemma for_loop_keeps (ws : list pydict) (kept : list WindowInfo)
      (window : pydict) (info : WindowInfo) :
  for_loop ws [] = Ok kept -> In window ws -> emits window info ->
  In info kept.
Proof.
  revert kept. induction ws as [|w0 rest IH]; intros kept; [intros _ []|].
  rewrite for_loop_cons.
  destruct (loop_body w0) as [r|e] eqn:E0; simpl; [|discriminate].
  destruct (for_loop rest []) as [k|e]; simpl; [|discriminate].
  intros [= <-] [->|Hin] He.
  - unfold emits in He. rewrite He in E0. injection E0 as <-. left; reflexivity.
  - specialize (IH k eq_refl Hin He). destruct r; [right|]; exact IH.
Qed.

Lemma sorted_windows_inv (ws : list pydict) (out : list WindowInfo) :
  sorted_windows (WindowList (Some ws)) = Ok out ->
  exists kept, for_loop ws [] = Ok kept /\ out = windows_sort kept.
Proof.
  unfold sorted_windows. simpl.
  destruct (for_loop ws []) as [kept|e]; simpl; [|discriminate].
  intros [= <-]. eauto.
Qed.

Lemma windows_sort_perm (l : list WindowInfo) : Permutation (windows_sort l) l.
Proof. apply StableSortFacts.sort_perm. Qed.

(** Every entry of the output was emitted for some window of the input. *)
Lemma output_In (ws : list pydict) (out : list WindowInfo) (info : WindowInfo) :
  sorted_windows (WindowList (Some ws)) = Ok out -> In info out ->
  exists window, In window ws /\ emits window info.
Proof.
  intros H Hin. destruct (sorted_windows_inv ws out H) as [kept [Hk ->]].
  apply (for_loop_In ws kept info Hk).
  apply (Permutation_in _ (windows_sort_perm kept) Hin).
Qed.

Lemma existsb_str_In (s : pystr) (l : list pystr) :
  existsb (str_eqb s) l = true <-> In s l.
Proof.
  rewrite existsb_exists. split.
  - intros [x [Hin Hx]]. apply str_eqb_eq in Hx. subst x. exact Hin.
  - intros Hin. exists s. split; [exact Hin | apply str_eqb_refl].
Qed.

Lemma any_app_spec (apps : list pystr) (name : pystr) :
  any_app apps name = true <->
  exists app, In app apps /\
    (substring (lower app) (lower name) \/ substring (lower name) (lower app)).
Proof.
  unfold any_app. rewrite existsb_exists.
  split; intros [app [Hin H]]; exists app; (split; [exact Hin|]).
  - apply orb_true_iff in H. rewrite !str_in_spec in H. exact H.
  - apply orb_true_iff. rewrite !str_in_spec. exact H.
Qed.

(** The flag of an emitted entry is computed from its name alone. *)
Lemma emits_isImportant (window : pydict) (info : WindowInfo) :
  emits window info -> isImportant info = is_important (appName info).
Proof.
  intros He.
  destruct (emits_inv window info He) as (w & h & l & d & _ & _ & _ & _ & _ &
    _ & _ & _ & _ & _ & _ & _ & Hinfo).
  apply (f_equal isImportant) in Hinfo. exact Hinfo.
Qed.

Lemma emits_not_drops (window : pydict) (info : WindowInfo) :
  emits window info -> ~ drops window.
Proof. unfold emits, drops. congruence. Qed.

(* ===================================================================== *)
(** ** The identity rule *)
(* ===================================================================== *)

(** C1, as the script has it.  For a window whose number, when present, is
    an integer and whose owner name, when present, is a string, the test
    [not (app_name and window_num)] holds exactly when the number is absent
    or zero or the name is absent or empty; the window is then dropped.  A
    window with a non-zero number and a non-empty name passes the test. *)
Theorem identity_rule (window : pydict) :
  absent_or is_int (lookup window kCGWindowNumber) = true ->
  absent_or is_str (lookup window kCGWindowOwnerName) = true ->
  (no_identity window = true <->
     lookup window kCGWindowNumber = None \/
     lookup window kCGWindowNumber = Some (PyInt 0) \/
     lookup window kCGWindowOwnerName = None \/
     lookup window kCGWindowOwnerName = Some (PyStr []))
  /\ (no_identity window = false <->
        exists n name, n <> 0 /\ name <> [] /\
          lookup window kCGWindowNumber = Some (PyInt n) /\
          lookup window kCGWindowOwnerName = Some (PyStr name))
  /\ (no_identity window = true -> drops window).
Proof.
  intros Hnum Hname.
  split; [|split; [|apply no_identity_drops]];
    unfold no_identity, app_name, window_num, dict_get;
    rewrite truthy_py_and;
    destruct (lookup window kCGWindowNumber) as [[| |n| |]|];
    try discriminate Hnum;
    destruct (lookup window kCGWindowOwnerName) as [[| | |name|]|];
    try discriminate Hname;
    try destruct name as [|c name]; cbn [truthy andb negb];
    try (destruct (Z.eqb_spec n 0) as [->|Hn]; cbn [negb]);
    split; intros H; try discriminate H.
  all: try tauto.
  all: try (destruct H as [?|[?|[?|?]]]; congruence).
  all: try (exists n, (c :: name); repeat split; congruence).
  all: destruct H as [n0 [name0 [? [? [? ?]]]]]; congruence.
Qed.

Lemma identity_rule_witness :
  let window := sample_window 12 "Safari" "Start Page" 800 600 0 in
  (no_identity window = true <->
     lookup window kCGWindowNumber = None \/
     lookup window kCGWindowNumber = Some (PyInt 0) \/
     lookup window kCGWindowOwnerName = None \/
     lookup window kCGWindowOwnerName = Some (PyStr []))
  /\ (no_identity window = false <->
        exists n name, n <> 0 /\ name <> [] /\
          lookup window kCGWindowNumber = Some (PyInt n) /\
          lookup window kCGWindowOwnerName = Some (PyStr name))
  /\ (no_identity window = true -> drops window).
Proof.
  apply (identity_rule (sample_window 12 "Safari" "Start Page" 800 600 0));
    reflexivity.
Defined.

(** C1, as the claim words it, fails for window number 0: the number is
    present and the name is not empty, yet the identity test rejects the
    window, while the same window numbered 1 is emitted. *)
Lemma identity_rule_rejects_number_zero :
  let window := sample_window 0 "Safari" "Start Page" 800 600 0 in
  lookup window kCGWindowNumber = Some (PyInt 0) /\
  lookup window kCGWindowOwnerName = Some (PyStr (py "Safari")) /\
  py "Safari" <> [] /\
  no_identity window = true /\
  drops window /\
  exists info, emits (sample_window 1 "Safari" "Start Page" 800 600 0) info.
Proof.
  repeat split; try reflexivity; try discriminate.
  eexists. reflexivity.
Qed.

(* ===================================================================== *)
(** ** The importance classifier *)
(* ===================================================================== *)

(** C2.  An emitted entry is important exactly when some catalog entry,
    lower-cased, occurs in the lower-cased application name or the other way
    round.  "Code" is in the catalog and is important; "Visual Studio Code"
    occurs in "My Visual Studio Code Fork", which is important too.  Case is
    folded on both sides: "SLACK" and "datagrip" match no catalog entry
    letter for letter and are important, and so is "SLAC" followed by the
    Kelvin sign, whose lower-case form is "k". *)
Theorem importance_classifier :
  (forall window info, emits window info ->
     (isImportant info = true <->
      exists app, In app important_apps /\
        (substring (lower app) (lower (appName info)) \/
         substring (lower (appName info)) (lower app))))
  /\ In (py "Code") important_apps
  /\ is_important (py "Code") = true
  /\ (exists info, emits (sample_window 1 "Code" "" 60 60 0) info
                   /\ isImportant info = true)
  /\ In (py "Visual Studio Code") important_apps
  /\ substring (lower (py "Visual Studio Code"))
               (lower (py "My Visual Studio Code Fork"))
  /\ is_important (py "My Visual Studio Code Fork") = true
  /\ (exists info,
        emits (sample_window 2 "My Visual Studio Code Fork" "" 60 60 0) info
        /\ isImportant info = true)
  /\ lower (py "SLACK") = py "slack"
  /\ existsb (fun app => str_in app (py "SLACK") || str_in (py "SLACK") app)
             important_apps = false
  /\ is_important (py "SLACK") = true
  /\ lower (py "DataGrip") = py "datagrip"
  /\ existsb (fun app => str_in app (py "datagrip")
                         || str_in (py "datagrip") app)
             important_apps = false
  /\ is_important (py "datagrip") = true
  /\ lower (py "SLAC" ++ [8490%N]) = py "slack"
  /\ (exists info,
        emits (raw_window (PyInt 3) (PyStr (py "SLAC" ++ [8490%N]))
                 (PyStr []) (size (PyInt 60) (PyInt 60)) (PyInt 0)) info
        /\ isImportant info = true)
  /\ is_important (py "RandomTool") = false.
Proof.
  split; [|repeat apply conj; try by_computation].
  - intros window info He.
    rewrite (emits_isImportant window info He). apply any_app_spec.
  - apply existsb_str_In. vm_compute. reflexivity.
  - apply existsb_str_In. vm_compute. reflexivity.
  - apply str_in_spec. vm_compute. reflexivity.
Qed.

Lemma importance_classifier_witness :
  let info := {| windowId := PyInt 5;
                 appName := py "Slack";
                 windowTitle := [];
                 bounds := [ (py "X", PyInt 0); (py "Y", PyInt 0);
                             (Width, PyInt 400); (Height, PyInt 300) ];
                 isOnScreen := PyBool true;
                 layer := PyInt 0;
                 isImportant := true;
                 area := 120000 |} in
  isImportant info = true <->
  exists app, In app important_apps /\
    (substring (lower app) (lower (appName info)) \/
     substring (lower (appName info)) (lower app)).
Proof.
  apply (proj1 importance_classifier (sample_window 5 "Slack" "" 400 300 0)).
  reflexivity.
Defined.

(* ===================================================================== *)
(** ** The inclusion decision *)
(* ===================================================================== *)

Lemma is_reasonable_size_spec (w h : Z) :
  is_reasonable_size w h = true <-> 300 < w /\ 200 < h.
Proof. unfold is_reasonable_size. rewrite andb_true_iff. lia. Qed.

Lemma should_include_spec (name title : pystr) (w h : Z) :
  should_include (is_important name) (has_content title)
                 (is_reasonable_size w h) = true <->
  is_important name = true \/ strip title <> [] \/ (300 < w /\ 200 < h).
Proof.
  unfold should_include. rewrite !orb_true_iff, is_reasonable_size_spec.
  unfold has_content. rewrite negb_true_iff, str_eqb_neq. tauto.
Qed.

(** C3.  A window that passes the four guards is emitted exactly when its
    application is important, or its title is not empty once stripped, or
    it is wider than 300 and higher than 200; otherwise it is dropped.  The
    stripped title is not empty exactly when the title has a character that
    is not white space.  An unknown application with an empty title is kept
    at 310 by 210 and dropped at 100 by 100, and also at 300 by 210 and at
    310 by 200; at 100 by 100 it is dropped with a title of blanks, or of a
    tab, a no-break space and an ideographic space, and kept with a title
    that has a letter between blanks. *)
Theorem inclusion_decision :
  (forall window w h l name title,
     has_width window w -> has_height window h -> has_layer window l ->
     has_name window name -> has_title window title ->
     no_identity window = false -> is_system_app window = false ->
     50 <= w -> 50 <= h -> l <= 200 ->
     ((exists info, emits window info) <->
        is_important name = true \/ strip title <> [] \/ (300 < w /\ 200 < h))
     /\ (drops window <->
        ~ (is_important name = true \/ strip title <> []
           \/ (300 < w /\ 200 < h))))
  /\ (forall title,
        strip title <> [] <-> exists c, In c title /\ isspace c = false)
  /\ is_important (py "RandomTool") = false
  /\ (exists info, emits (sample_window 7 "RandomTool" "" 310 210 0) info)
  /\ drops (sample_window 7 "RandomTool" "" 100 100 0)
  /\ drops (sample_window 7 "RandomTool" "" 300 210 0)
  /\ drops (sample_window 7 "RandomTool" "" 310 200 0)
  /\ (exists info, emits (sample_window 7 "RandomTool" "Notes" 100 100 0) info)
  /\ drops (sample_window 7 "RandomTool" "   " 100 100 0)
  /\ drops (raw_window (PyInt 7) (PyStr (py "RandomTool"))
              (PyStr [9; 160; 12288]%N) (size (PyInt 100) (PyInt 100))
              (PyInt 0))
  /\ (exists info,
        emits (sample_window 7 "RandomTool" "  x " 100 100 0) info
        /\ windowTitle info = py "  x ")
  /\ strip (py "  x ") = py "x".
Proof.
  split; [|split; [|repeat apply conj; by_computation]].
  2: { intros title. rewrite <- has_content_spec. unfold has_content.
       rewrite negb_true_iff, str_eqb_neq. tauto. }
  intros window w h l name title Hw Hh Hl Hn Ht Hid Hsys Hw50 Hh50 Hl200.
  destruct (loop_body_typed window w h l name title Hw Hh Hl Hn Ht)
    as [d [_ Hbody]].
  rewrite Hid, Hsys in Hbody.
  replace (w <? 50) with false in Hbody by (symmetry; apply Z.ltb_ge; lia).
  replace (h <? 50) with false in Hbody by (symmetry; apply Z.ltb_ge; lia).
  replace (l >? 200) with false in Hbody
    by (symmetry; rewrite Z.gtb_ltb; apply Z.ltb_ge; lia).
  cbn [orb] in Hbody.
  rewrite <- should_include_spec. unfold emits, drops. rewrite Hbody.
  destruct (should_include _ _ _); cbn [negb]; split; split;
    try congruence; try (intros [info H]; discriminate H); eauto.
Qed.

Lemma inclusion_decision_witness :
  let window := sample_window 7 "RandomTool" "" 310 210 0 in
  ((exists info, emits window info) <->
     is_important (py "RandomTool") = true \/ strip (py "") <> []
     \/ (300 < 310 /\ 200 < 210))
  /\ (drops window <->
      ~ (is_important (py "RandomTool") = true \/ strip (py "") <> []
         \/ (300 < 310 /\ 200 < 210))).
Proof.
  apply (proj1 inclusion_decision (sample_window 7 "RandomTool" "" 310 210 0)
           310 210 0 (py "RandomTool") (py ""));
    try reflexivity; try lia.
  - exists (PyInt 310). split; reflexivity.
  - exists (PyInt 210). split; reflexivity.
Defined.

(* ===================================================================== *)
(** ** Order and emit *)
(* ===================================================================== *)

Lemma StronglySorted_before (R : WindowInfo -> WindowInfo -> Prop)
      (l : list WindowInfo) :
  StronglySorted R l <-> (forall x y, before x y l -> R x y).
Proof.
  split.
  - induction 1 as [|a l Hs IH Ha]; intros x y [l1 [l2 [l3 E]]].
    + destruct l1; discriminate E.
    + destruct l1 as [|b l1]; simpl in E; injection E as -> ->.
      * rewrite Forall_forall in Ha. apply Ha.
        apply in_or_app. right. left. reflexivity.
      * apply IH. exists l1, l2, l3. reflexivity.
  - induction l as [|a l IH]; intros H; constructor.
    + apply IH. intros x y [l1 [l2 [l3 ->]]]. apply H.
      exists (a :: l1), l2, l3. reflexivity.
    + apply Forall_forall. intros y Hy.
      destruct (in_split y l Hy) as [l2 [l3 ->]]. apply H.
      exists [], l2, l3. reflexivity.
Qed.

Lemma le_in_order (x y : WindowInfo) :
  StableSort.le sort_key key_compare x y <-> in_order x y.
Proof.
  unfold StableSort.le, StableSort.lt, in_order, sort_key, key_compare.
  cbn [fst snd]. rewrite (str_compare_antisym (appName x) (appName y)).
  destruct (isImportant x), (isImportant y); cbn [negb bool_compare];
    destruct (str_compare (appName x) (appName y)); cbn [CompOpp];
    split; try congruence; try (intros [H1 H2]);
    try (split; congruence); try discriminate (H1 eq_refl);
    exfalso; apply H2; reflexivity.
Qed.

Lemma with_key_same_key (important : bool) (name : pystr) (x : WindowInfo) :
  with_key important name x =
  StableSort.same_key sort_key key_compare (negb important, name) x.
Proof.
  unfold with_key, StableSort.same_key.
  destruct (key_compare (sort_key x) (negb important, name)) eqn:E.
  - apply key_compare_eq in E. unfold sort_key in E. injection E as E1 E2.
    rewrite E2, str_eqb_refl.
    destruct (isImportant x), important; simpl in *; congruence.
  - destruct (Bool.eqb (isImportant x) important) eqn:E1; [|reflexivity].
    apply Bool.eqb_prop in E1. simpl.
    apply str_eqb_neq. intros E2. unfold sort_key in E.
    rewrite E1, E2 in E.
    rewrite (proj2 (key_compare_eq _ _) eq_refl) in E. discriminate.
  - destruct (Bool.eqb (isImportant x) important) eqn:E1; [|reflexivity].
    apply Bool.eqb_prop in E1. simpl.
    apply str_eqb_neq. intros E2. unfold sort_key in E.
    rewrite E1, E2 in E.
    rewrite (proj2 (key_compare_eq _ _) eq_refl) in E. discriminate.
Qed.

Lemma filter_ext_key (l1 l2 : list WindowInfo) :
  (forall important name,
     filter (with_key important name) l1 = filter (with_key important name) l2) ->
  forall k, filter (StableSort.same_key sort_key key_compare k) l1
            = filter (StableSort.same_key sort_key key_compare k) l2.
Proof.
  intros H [b name]. specialize (H (negb b) name).
  rewrite (filter_ext _ _ (with_key_same_key (negb b) name) l1) in H.
  rewrite (filter_ext _ _ (with_key_same_key (negb b) name) l2) in H.
  rewrite negb_involutive in H. exact H.
Qed.

(** C4.  When the loop has kept [kept], the list handed to the printer is a
    rearrangement of [kept] with every entry once per occurrence; an
    important entry never follows one that is not; two entries with the
    same flag stand in the order of their names (code point by code point);
    entries with the same flag and name stand in the order the loop kept
    them; and no other list has these properties, so every stable sort, on
    every run, gives this list. *)
Theorem order_and_emit (ws : list pydict) (kept : list WindowInfo) :
  for_loop ws [] = Ok kept ->
  exists out,
    sorted_windows (WindowList (Some ws)) = Ok out /\
    Permutation out kept /\
    List.length out = List.length kept /\
    (forall x y, before x y out -> in_order x y) /\
    (forall important name,
       filter (with_key important name) out
       = filter (with_key important name) kept) /\
    (forall out',
       (forall x y, before x y out' -> in_order x y) ->
       (forall important name,
          filter (with_key important name) out'
          = filter (with_key important name) kept) ->
       out' = out).
Proof.
  intros Hk. exists (windows_sort kept).
  assert (Hsorted : StronglySorted (StableSort.le sort_key key_compare)
                      (windows_sort kept)).
  { apply StableSortFacts.sort_sorted.
    - apply key_compare_eq.
    - apply key_compare_antisym.
    - apply key_compare_trans. }
  assert (Hstable : forall important name,
             filter (with_key important name) (windows_sort kept)
             = filter (with_key important name) kept).
  { intros important name.
    rewrite (filter_ext _ _ (with_key_same_key important name) (windows_sort kept)).
    rewrite (filter_ext _ _ (with_key_same_key important name) kept).
    apply StableSortFacts.sort_stable, key_compare_eq. }
  repeat apply conj.
  - unfold sorted_windows. simpl. rewrite Hk. reflexivity.
  - apply windows_sort_perm.
  - apply Permutation_length, windows_sort_perm.
  - intros x y Hb. apply le_in_order.
    revert x y Hb. apply StronglySorted_before. exact Hsorted.
  - exact Hstable.
  - intros out' Hord Hst.
    apply (StableSortFacts.sort_unique sort_key key_compare
             key_compare_eq key_compare_antisym).
    + apply StronglySorted_before. intros x y Hb.
      apply le_in_order, Hord, Hb.
    + exact Hsorted.
    + apply filter_ext_key. intros important name.
      rewrite Hst, Hstable. reflexivity.
Qed.

Lemma order_and_emit_witness :
  exists out,
    sorted_windows (WindowList (Some sample_desktop)) = Ok out /\
    Permutation out (kept_of sample_desktop) /\
    List.length out = List.length (kept_of sample_desktop) /\
    (forall x y, before x y out -> in_order x y) /\
    (forall important name,
       filter (with_key important name) out
       = filter (with_key important name) (kept_of sample_desktop)) /\
    (forall out',
       (forall x y, before x y out' -> in_order x y) ->
       (forall important name,
          filter (with_key important name) out'
          = filter (with_key important name) (kept_of sample_desktop)) ->
       out' = out).
Proof.
  apply (order_and_emit sample_desktop (kept_of sample_desktop)).
  vm_compute. reflexivity.
Defined.

(** The sample desktop: the Dock is gone, the browser comes first, the two
    chat windows and the two unknown windows keep their input order. *)
Example sample_desktop_sorted :
  exists out,
    sorted_windows (WindowList (Some sample_desktop)) = Ok out /\
    map windowId out = [PyInt 8; PyInt 5; PyInt 9; PyInt 7; PyInt 10] /\
    map isImportant out = [true; true; true; false; false].
Proof. eexists. split; [vm_compute; reflexivity|]. split; reflexivity. Qed.

(* ===================================================================== *)
(** ** Failure *)
(* ===================================================================== *)

Lemma main_raise (json_dumps : list WindowInfo -> result pystr) (q : Quartz)
      (e : exn) :
  try_block json_dumps q = Raise e ->
  main json_dumps q = {| stdout := [py "[]"]; exit_status := 0 |}.
Proof. unfold main. intros ->. destruct e; reflexivity. Qed.

(** C5.  Whatever the printer and the window server do, the process ends
    with status 0 and has printed once: either the text the printer made of
    the whole sorted list, or the two characters of the empty array.  It
    prints the empty array whenever the [try] block raises, which it does
    when Quartz cannot be imported, when the window server gives no list,
    when one turn of the loop raises (whatever the other turns kept), and
    when the printer raises. *)
Theorem fail_safe (json_dumps : list WindowInfo -> result pystr) (q : Quartz) :
  exit_status (main json_dumps q) = 0
  /\ (stdout (main json_dumps q) = [py "[]"] \/
      exists windows text,
        sorted_windows q = Ok windows /\ json_dumps windows = Ok text /\
        stdout (main json_dumps q) = [text])
  /\ List.length (py "[]") = 2%nat
  /\ (forall e, try_block json_dumps q = Raise e ->
        main json_dumps q = {| stdout := [py "[]"]; exit_status := 0 |})
  /\ (q = NoQuartz -> try_block json_dumps q = Raise ImportError)
  /\ (q = WindowList None -> try_block json_dumps q = Raise TypeError)
  /\ (forall ws window e,
        q = WindowList (Some ws) -> In window ws ->
        loop_body window = Raise e ->
        exists e', try_block json_dumps q = Raise e')
  /\ (forall windows e,
        sorted_windows q = Ok windows -> json_dumps windows = Raise e ->
        try_block json_dumps q = Raise e).
Proof.
  repeat apply conj.
  - unfold main. destruct (try_block json_dumps q) as [text|[]]; reflexivity.
  - unfold main, try_block.
    destruct (sorted_windows q) as [windows|e] eqn:Es; cbn [bind].
    + destruct (json_dumps windows) as [text|e] eqn:Ej.
      * right. exists windows, text. auto.
      * left. destruct e; reflexivity.
    + left. destruct e; reflexivity.
  - reflexivity.
  - apply main_raise.
  - intros ->. reflexivity.
  - intros ->. reflexivity.
  - intros ws window e -> Hin He.
    destruct (for_loop_raises ws window e Hin He) as [e' He'].
    exists e'. unfold try_block, sorted_windows. simpl. rewrite He'. reflexivity.
  - intros windows e Hs Hj. unfold try_block. rewrite Hs. exact Hj.
Qed.

Lemma fail_safe_witness :
  main dumps_raises (WindowList (Some broken_desktop))
    = {| stdout := [py "[]"]; exit_status := 0 |}
  /\ (exists e', try_block dumps_raises (WindowList (Some broken_desktop))
                 = Raise e')
  /\ try_block dumps_raises NoQuartz = Raise ImportError
  /\ try_block dumps_raises (WindowList None) = Raise TypeError
  /\ try_block dumps_raises (WindowList (Some sample_desktop))
     = Raise TypeError.
Proof.
  repeat apply conj.
  - apply (proj1 (proj2 (proj2 (proj2
             (fail_safe dumps_raises (WindowList (Some broken_desktop))))))
             AttributeError).
    reflexivity.
  - apply (proj1 (proj2 (proj2 (proj2 (proj2 (proj2 (proj2
             (fail_safe dumps_raises (WindowList (Some broken_desktop)))))))))
             broken_desktop (nth 1 broken_desktop []) AttributeError).
    + reflexivity.
    + right. left. reflexivity.
    + reflexivity.
  - apply (proj1 (proj2 (proj2 (proj2 (proj2
             (fail_safe dumps_raises NoQuartz)))))).
    reflexivity.
  - apply (proj1 (proj2 (proj2 (proj2 (proj2 (proj2
             (fail_safe dumps_raises (WindowList None)))))))).
    reflexivity.
  - apply (proj2 (proj2 (proj2 (proj2 (proj2 (proj2 (proj2
             (fail_safe dumps_raises (WindowList (Some sample_desktop)))))))))
             (windows_sort (kept_of sample_desktop)) TypeError).
    + vm_compute. reflexivity.
    + reflexivity.
Defined.

(* ===================================================================== *)
(** ** The size rule *)
(* ===================================================================== *)

Lemma window_width_height (window : pydict) (wv : pyval) :
  window_width window = Ok wv -> exists hv, window_height window = Ok hv.
Proof.
  unfold window_width, window_height, py_get.
  destruct (window_bounds window); try discriminate. eauto.
Qed.

Lemma narrow_drops (window : pydict) (w : Z) :
  has_width window w -> w < 50 -> drops window.
Proof.
  intros [wv [Hw Hwn]] Hlt. unfold drops, loop_body, continue.
  destruct (no_identity window); [reflexivity|].
  destruct (is_system_app window); [reflexivity|].
  destruct (window_width_height window wv Hw) as [hv Hh].
  rewrite Hw, Hh. cbn [bind]. unfold too_small. rewrite Hwn. cbn [bind].
  replace (w <? 50) with true by (symmetry; apply Z.ltb_lt; exact Hlt).
  reflexivity.
Qed.

Lemma low_drops (window : pydict) (w h : Z) :
  has_width window w -> has_height window h -> h < 50 -> drops window.
Proof.
  intros Hw [hv [Hh Hhn]] Hlt.
  destruct (Z.ltb_spec w 50) as [Hw50|Hw50];
    [exact (narrow_drops window w Hw Hw50)|].
  destruct Hw as [wv [Hw Hwn]]. unfold drops, loop_body, continue.
  destruct (no_identity window); [reflexivity|].
  destruct (is_system_app window); [reflexivity|].
  rewrite Hw, Hh. cbn [bind]. unfold too_small. rewrite Hwn. cbn [bind].
  replace (w <? 50) with false by (symmetry; apply Z.ltb_ge; exact Hw50).
  rewrite Hhn. cbn [bind].
  replace (h <? 50) with true by (symmetry; apply Z.ltb_lt; exact Hlt).
  reflexivity.
Qed.

(** C6.  A window narrower than 50 or lower than 50 is dropped, whatever
    its application, title and other fields; the size test lets a window
    through exactly when its width and height are both at least 50.  A 40
    by 40 window of an important application is dropped; a 60 by 60 window
    with a title goes on and is emitted. *)
Theorem size_rule :
  (forall window w, has_width window w -> w < 50 -> drops window)
  /\ (forall window w h,
        has_width window w -> has_height window h -> h < 50 -> drops window)
  /\ (forall wv hv w h,
        num_of wv = Ok w -> num_of hv = Ok h ->
        (too_small wv hv = Ok false <-> 50 <= w /\ 50 <= h))
  /\ is_important (py "Safari") = true
  /\ drops (sample_window 1 "Safari" "Apple" 40 40 0)
  /\ drops (sample_window 1 "Safari" "Apple" 49 600 0)
  /\ drops (sample_window 1 "Safari" "Apple" 800 49 0)
  /\ (exists info, emits (sample_window 2 "RandomTool" "Notes" 60 60 0) info)
  /\ (exists info, emits (sample_window 2 "RandomTool" "Notes" 50 50 0) info).
Proof.
  repeat apply conj; try by_computation.
  - exact narrow_drops.
  - exact low_drops.
  - intros wv hv w h Hw Hh. unfold too_small. rewrite Hw. cbn [bind].
    destruct (Z.ltb_spec w 50); [split; [discriminate | lia]|].
    rewrite Hh. cbn [bind].
    destruct (Z.ltb_spec h 50); split; try discriminate; try lia; reflexivity.
Qed.

Lemma size_rule_witness :
  drops (sample_window 1 "Safari" "Apple" 40 600 0)
  /\ drops (sample_window 1 "Safari" "Apple" 600 40 0)
  /\ (too_small (PyInt 60) (PyInt 60) = Ok false <-> 50 <= 60 /\ 50 <= 60).
Proof.
  repeat apply conj.
  - apply (proj1 size_rule (sample_window 1 "Safari" "Apple" 40 600 0) 40);
      [exists (PyInt 40); split; reflexivity | lia].
  - apply (proj1 (proj2 size_rule)
             (sample_window 1 "Safari" "Apple" 600 40 0) 600 40);
      [exists (PyInt 600); split; reflexivity
      |exists (PyInt 40); split; reflexivity | lia].
  - apply (proj1 (proj1 (proj2 (proj2 size_rule))
                   (PyInt 60) (PyInt 60) 60 60 eq_refl eq_refl)).
  - apply (proj2 (proj1 (proj2 (proj2 size_rule))
                   (PyInt 60) (PyInt 60) 60 60 eq_refl eq_refl)).
Defined.

(* ===================================================================== *)
(** ** The layer rule *)
(* ===================================================================== *)

Lemma high_layer_spec (window : pydict) (l : Z) :
  has_layer window l ->
  high_layer (window_layer window) = Ok (l >? 200).
Proof. unfold has_layer, high_layer. intros ->. reflexivity. Qed.

Lemma high_layer_not_emitted (window : pydict) (l : Z) (info : WindowInfo) :
  has_layer window l -> 200 < l -> ~ emits window info.
Proof.
  intros Hl Hlt He.
  destruct (emits_inv window info He) as (w & h & l' & d & _ & _ & Hl' & _ &
    _ & _ & _ & _ & _ & _ & Hle & _).
  unfold has_layer in *. rewrite Hl in Hl'. injection Hl' as <-. lia.
Qed.

(** C7.  For a window with layer above 200 the layer test holds and nothing
    is emitted; when its size is a pair of numbers the window is dropped.
    For a window with layer at most 200 the layer test does not hold.  A
    titled window is emitted at layer 200 and dropped at layer 201. *)
Theorem layer_rule :
  (forall window l, has_layer window l -> 200 < l ->
     high_layer (window_layer window) = Ok true
     /\ forall info, ~ emits window info)
  /\ (forall window l w h,
        has_layer window l -> 200 < l ->
        has_width window w -> has_height window h -> drops window)
  /\ (forall window l, has_layer window l -> l <= 200 ->
        high_layer (window_layer window) = Ok false)
  /\ (exists info, emits (sample_window 1 "Notes" "Todo" 400 300 200) info)
  /\ drops (sample_window 1 "Notes" "Todo" 400 300 201).
Proof.
  repeat apply conj; try by_computation.
  - intros window l Hl Hlt. split.
    + rewrite (high_layer_spec window l Hl).
      replace (l >? 200) with true; [reflexivity|].
      symmetry. rewrite Z.gtb_ltb. apply Z.ltb_lt. exact Hlt.
    + intros info. exact (high_layer_not_emitted window l info Hl Hlt).
  - intros window l w h Hl Hlt [wv [Hw Hwn]] [hv [Hh Hhn]].
    unfold drops, loop_body, continue.
    destruct (no_identity window); [reflexivity|].
    destruct (is_system_app window); [reflexivity|].
    rewrite Hw, Hh. cbn [bind]. unfold too_small. rewrite Hwn. cbn [bind].
    destruct (w <? 50); [reflexivity|]. rewrite Hhn. cbn [bind].
    destruct (h <? 50); [reflexivity|].
    rewrite (high_layer_spec window l Hl). cbn [bind].
    replace (l >? 200) with true; [reflexivity|].
    symmetry. rewrite Z.gtb_ltb. apply Z.ltb_lt. exact Hlt.
  - intros window l Hl Hle. rewrite (high_layer_spec window l Hl).
    replace (l >? 200) with false; [reflexivity|].
    symmetry. rewrite Z.gtb_ltb. apply Z.ltb_ge. exact Hle.
Qed.

Lemma layer_rule_witness :
  (high_layer (window_layer (sample_window 1 "Notes" "Todo" 400 300 201))
   = Ok true
   /\ forall info, ~ emits (sample_window 1 "Notes" "Todo" 400 300 201) info)
  /\ drops (sample_window 1 "Notes" "Todo" 400 300 201)
  /\ high_layer (window_layer (sample_window 1 "Notes" "Todo" 400 300 200))
     = Ok false.
Proof.
  split; [|split].
  - apply (proj1 layer_rule (sample_window 1 "Notes" "Todo" 400 300 201) 201);
      [reflexivity | lia].
  - apply (proj1 (proj2 layer_rule)
             (sample_window 1 "Notes" "Todo" 400 300 201) 201 400 300);
      [reflexivity | lia
      | exists (PyInt 400); split; reflexivity
      | exists (PyInt 300); split; reflexivity].
  - apply (proj1 (proj2 (proj2 layer_rule))
             (sample_window 1 "Notes" "Todo" 400 300 200) 200);
      [reflexivity | lia].
Defined.

(* ===================================================================== *)
(** ** The system applications *)
(* ===================================================================== *)

(** C8.  The system test holds exactly when the owner name is a string
    equal to an entry of the exclusion list.  Such a window is dropped
    whatever its other fields, and no entry of the output carries such a
    name.  "Dock" is excluded, also as a large titled window; "Docker",
    "dock", "Doc" and "Mnemora Helper" are not excluded by this test. *)
Theorem system_exclusion :
  (forall window,
     is_system_app window = true <->
     exists name, app_name window = PyStr name /\ In name system_apps_to_skip)
  /\ (forall window name,
        has_name window name -> In name system_apps_to_skip -> drops window)
  /\ (forall ws out info,
        sorted_windows (WindowList (Some ws)) = Ok out -> In info out ->
        ~ In (appName info) system_apps_to_skip)
  /\ In (py "Dock") system_apps_to_skip
  /\ drops (sample_window 6 "Dock" "Desktop" 1000 500 0)
  /\ is_important (py "Finder") = true
  /\ is_system_app (sample_window 6 "Docker" "Containers" 1000 500 0) = false
  /\ (exists info, emits (sample_window 6 "Docker" "Containers" 1000 500 0) info)
  /\ is_system_app (sample_window 6 "dock" "Desktop" 1000 500 0) = false
  /\ is_system_app (sample_window 6 "Doc" "Desktop" 1000 500 0) = false
  /\ is_system_app (sample_window 6 "Mnemora Helper" "" 1000 500 0) = false.
Proof.
  repeat apply conj; try by_computation.
  - intros window. apply in_list_spec.
  - intros window name Hn Hin. apply is_system_app_drops.
    apply in_list_spec. exists name. split; assumption.
  - intros ws out info Hs Hin Hsys.
    destruct (output_In ws out info Hs Hin) as [window [_ He]].
    destruct (emits_inv window info He) as (w & h & l & d & _ & _ & _ & Hn & _ &
      _ & _ & Hns & _).
    assert (Ht : is_system_app window = true).
    { apply in_list_spec. exists (appName info). split; assumption. }
    congruence.
  - apply existsb_str_In. vm_compute. reflexivity.
Qed.

Lemma system_exclusion_witness :
  drops (sample_window 6 "Dock" "Desktop" 1000 500 0)
  /\ ~ In (appName (nth 0 (windows_sort (kept_of sample_desktop))
                      (mkWindowInfo PyNone [] [] [] PyNone PyNone false 0)))
          system_apps_to_skip.
Proof.
  split.
  - apply (proj1 (proj2 system_exclusion)
             (sample_window 6 "Dock" "Desktop" 1000 500 0) (py "Dock")).
    + reflexivity.
    + apply existsb_str_In. vm_compute. reflexivity.
  - apply (proj1 (proj2 (proj2 system_exclusion))
             sample_desktop (windows_sort (kept_of sample_desktop))).
    + vm_compute. reflexivity.
    + vm_compute. left. reflexivity.
Defined.

(* ===================================================================== *)
(** ** Importance depends on the name only *)
(* ===================================================================== *)

Lemma any_app_perm (apps apps' : list pystr) (name : pystr) :
  Permutation apps apps' -> any_app apps name = any_app apps' name.
Proof.
  unfold any_app. induction 1 as [|a l l' _ IH|a b l|l l' l'' _ IH1 _ IH2]; simpl.
  - reflexivity.
  - rewrite IH. reflexivity.
  - destruct (str_in (lower a) (lower name) || str_in (lower name) (lower a)),
             (str_in (lower b) (lower name) || str_in (lower name) (lower b));
      reflexivity.
  - rewrite IH1. exact IH2.
Qed.

(** C9.  Two emitted entries with the same name carry the same flag,
    whatever the titles, sizes, layers and on-screen values of their
    windows; the flag is the value of the catalog test on the name; and the
    catalog test gives the same value on every rearrangement of the
    catalog. *)
Theorem importance_is_pure :
  (forall window1 window2 info1 info2,
     emits window1 info1 -> emits window2 info2 ->
     appName info1 = appName info2 ->
     isImportant info1 = isImportant info2)
  /\ (forall window info,
        emits window info ->
        isImportant info = any_app important_apps (appName info))
  /\ (forall apps apps' name,
        Permutation apps apps' -> any_app apps name = any_app apps' name).
Proof.
  repeat apply conj.
  - intros window1 window2 info1 info2 H1 H2 Hn.
    rewrite (emits_isImportant window1 info1 H1).
    rewrite (emits_isImportant window2 info2 H2).
    rewrite Hn. reflexivity.
  - intros window info He. exact (emits_isImportant window info He).
  - exact any_app_perm.
Qed.

Lemma importance_is_pure_witness :
  (forall info1 info2,
     emits (sample_window 5 "Slack" "" 400 300 0) info1 ->
     emits [ (kCGWindowNumber, PyInt 9);
             (kCGWindowOwnerName, PyStr (py "Slack"));
             (kCGWindowName, PyStr (py "general"));
             (kCGWindowBounds,
               PyDict [ (Width, PyInt 60); (Height, PyInt 70) ]);
             (kCGWindowLayer, PyInt 3) ] info2 ->
     isImportant info1 = isImportant info2)
  /\ any_app (rev important_apps) (py "Slack")
     = any_app important_apps (py "Slack").
Proof.
  split.
  - intros info1 info2 H1 H2.
    apply (proj1 importance_is_pure _ _ info1 info2 H1 H2).
    unfold emits in H1, H2. vm_compute in H1, H2.
    injection H1 as <-. injection H2 as <-. reflexivity.
  - apply (proj2 (proj2 importance_is_pure)).
    apply Permutation_sym, Permutation_rev.
Defined.

(* ===================================================================== *)
(** ** Missing fields *)
(* ===================================================================== *)

(** What the loop reads from a well-formed window. *)
Lemma well_formed_typed (window : pydict) :
  well_formed window = true ->
  (app_name window = PyNone \/ exists name, has_name window name)
  /\ (exists title, has_title window title)
  /\ (exists w, has_width window w)
  /\ (exists h, has_height window h)
  /\ (exists l, has_layer window l).
Proof.
  unfold well_formed. rewrite !andb_true_iff.
  intros [[[[[_ Hname] Htitle] Hbounds] Hlayer] _].
  unfold has_name, has_title, has_width, has_height, has_layer, app_name,
    window_title, window_width, window_height, window_bounds, window_layer,
    dict_get.
  repeat apply conj.
  - destruct (lookup window kCGWindowOwnerName) as [[| | |s|]|];
      try discriminate Hname; eauto.
  - destruct (lookup window kCGWindowName) as [[| | |s|]|];
      try discriminate Htitle; eauto.
  - destruct (lookup window kCGWindowBounds) as [[| | | |d]|];
      try discriminate Hbounds; cbn [py_get];
      [|exists 0, (PyInt 0); split; reflexivity].
    unfold dict_get. simpl in Hbounds. apply andb_true_iff in Hbounds.
    destruct Hbounds as [Hw _].
    destruct (lookup d Width) as [[| |n| |]|]; try discriminate Hw;
      do 2 eexists; split; reflexivity.
  - destruct (lookup window kCGWindowBounds) as [[| | | |d]|];
      try discriminate Hbounds; cbn [py_get];
      [|exists 0, (PyInt 0); split; reflexivity].
    unfold dict_get. simpl in Hbounds. apply andb_true_iff in Hbounds.
    destruct Hbounds as [_ Hh].
    destruct (lookup d Height) as [[| |n| |]|]; try discriminate Hh;
      do 2 eexists; split; reflexivity.
  - destruct (lookup window kCGWindowLayer) as [[| |n| |]|];
      try discriminate Hlayer; eexists; reflexivity.
Qed.

(** On a well-formed window no turn of the loop raises. *)
Lemma loop_body_returns (window : pydict) :
  well_formed window = true -> exists r, loop_body window = Ok r.
Proof.
  intros Hwf.
  destruct (well_formed_typed window Hwf)
    as ([Hnone|[name Hn]] & [title Ht] & [w Hw] & [h Hh] & [l Hl]).
  - exists None. apply no_identity_drops. unfold no_identity.
    rewrite truthy_py_and, Hnone. reflexivity.
  - destruct (loop_body_typed window w h l name title Hw Hh Hl Hn Ht)
      as [d [_ ->]]. eauto.
Qed.

Lemma sorted_windows_returns (ws : list pydict) :
  forallb well_formed ws = true ->
  exists out, sorted_windows (WindowList (Some ws)) = Ok out.
Proof.
  intros H. rewrite forallb_forall in H.
  destruct (for_loop_returns ws) as [kept Hk].
  { apply Forall_forall. intros window Hin.
    apply loop_body_returns, H, Hin. }
  exists (windows_sort kept). unfold sorted_windows. simpl. rewrite Hk.
  reflexivity.
Qed.

Lemma emits_fields (window : pydict) (info : WindowInfo) :
  emits window info ->
  window_title window = PyStr (windowTitle info)
  /\ isOnScreen info = window_onscreen window
  /\ layer info = window_layer window.
Proof.
  intros He.
  destruct (emits_inv window info He) as (w & h & l & d & _ & _ & _ & _ & Ht &
    _ & _ & _ & _ & _ & _ & _ & Hinfo).
  repeat apply conj.
  - exact Ht.
  - apply (f_equal isOnScreen) in Hinfo. exact Hinfo.
  - apply (f_equal layer) in Hinfo. exact Hinfo.
Qed.

(** C10.  On a well-formed window, whichever keys are absent, the loop does
    not raise, and a list of such windows reaches the printer.  A missing
    title is read as the empty string and emitted as such; a missing bounds
    dictionary, width or height is read as 0 and the window is dropped; a
    missing layer is read as 0, which passes the layer test, and emitted as
    0; a missing on-screen flag is emitted as [False]. *)
Theorem missing_fields :
  (forall window, well_formed window = true ->
     exists r, loop_body window = Ok r)
  /\ (forall ws, forallb well_formed ws = true ->
        exists out, sorted_windows (WindowList (Some ws)) = Ok out)
  /\ (forall window, lookup window kCGWindowName = None ->
        window_title window = PyStr []
        /\ forall info, emits window info -> windowTitle info = [])
  /\ (forall window, lookup window kCGWindowBounds = None ->
        has_width window 0 /\ has_height window 0 /\ drops window)
  /\ (forall window d,
        lookup window kCGWindowBounds = Some (PyDict d) ->
        lookup d Width = None ->
        has_width window 0 /\ drops window)
  /\ (forall window d,
        well_formed window = true ->
        lookup window kCGWindowBounds = Some (PyDict d) ->
        lookup d Height = None ->
        has_height window 0 /\ drops window)
  /\ (forall window, lookup window kCGWindowLayer = None ->
        window_layer window = PyInt 0
        /\ high_layer (window_layer window) = Ok false
        /\ forall info, emits window info -> layer info = PyInt 0)
  /\ (forall window, lookup window kCGWindowIsOnscreen = None ->
        forall info, emits window info -> isOnScreen info = PyBool false)
  /\ (exists info,
        emits (without kCGWindowName (sample_window 5 "Slack" "x" 400 300 0))
              info /\ windowTitle info = [])
  /\ drops (without kCGWindowBounds (sample_window 5 "Slack" "x" 400 300 0))
  /\ (exists info,
        emits (without kCGWindowLayer (sample_window 5 "Slack" "x" 400 300 9))
              info /\ layer info = PyInt 0)
  /\ (exists info,
        emits (without kCGWindowIsOnscreen
                 (sample_window 5 "Slack" "x" 400 300 0)) info
        /\ isOnScreen info = PyBool false).
Proof.
  repeat apply conj; try by_computation.
  - exact loop_body_returns.
  - exact sorted_windows_returns.
  - intros window Hnone.
    assert (Ht : window_title window = PyStr []).
    { unfold window_title, dict_get. rewrite Hnone. reflexivity. }
    split; [exact Ht|]. intros info He.
    destruct (emits_fields window info He) as [Ht' _]. congruence.
  - intros window Hnone.
    assert (Hw : has_width window 0).
    { exists (PyInt 0). unfold window_width, window_bounds, dict_get.
      rewrite Hnone. split; reflexivity. }
    assert (Hh : has_height window 0).
    { exists (PyInt 0). unfold window_height, window_bounds, dict_get.
      rewrite Hnone. split; reflexivity. }
    repeat apply conj; [exact Hw | exact Hh |].
    apply (narrow_drops window 0 Hw). lia.
  - intros window d Hd Hnone.
    assert (Hw : has_width window 0).
    { exists (PyInt 0). unfold window_width, window_bounds, dict_get.
      rewrite Hd. cbn [py_get]. unfold dict_get. rewrite Hnone.
      split; reflexivity. }
    split; [exact Hw|]. apply (narrow_drops window 0 Hw). lia.
  - intros window d Hwf Hd Hnone.
    assert (Hh : has_height window 0).
    { exists (PyInt 0). unfold window_height, window_bounds, dict_get.
      rewrite Hd. cbn [py_get]. unfold dict_get. rewrite Hnone.
      split; reflexivity. }
    split; [exact Hh|].
    destruct (well_formed_typed window Hwf) as (_ & _ & [w Hw] & _).
    apply (low_drops window w 0 Hw Hh). lia.
  - intros window Hnone.
    assert (Hl : window_layer window = PyInt 0).
    { unfold window_layer, dict_get. rewrite Hnone. reflexivity. }
    repeat apply conj.
    + exact Hl.
    + rewrite Hl. reflexivity.
    + intros info He. destruct (emits_fields window info He) as (_ & _ & Hli).
      congruence.
  - intros window Hnone info He.
    destruct (emits_fields window info He) as (_ & Ho & _).
    rewrite Ho. unfold window_onscreen, dict_get. rewrite Hnone. reflexivity.
Qed.

Lemma missing_fields_witness :
  let window := sample_window 5 "Slack" "x" 400 300 0 in
  (exists r, loop_body (without kCGWindowName window) = Ok r)
  /\ (exists out,
        sorted_windows
          (WindowList (Some [ without kCGWindowName window;
                              without kCGWindowBounds window;
                              without kCGWindowLayer window;
                              without kCGWindowIsOnscreen window ])) = Ok out)
  /\ window_title (without kCGWindowName window) = PyStr []
  /\ drops (without kCGWindowBounds window)
  /\ drops [ (kCGWindowNumber, PyInt 5);
             (kCGWindowOwnerName, PyStr (py "Slack"));
             (kCGWindowBounds, PyDict [ (Height, PyInt 300) ]) ]
  /\ drops [ (kCGWindowNumber, PyInt 5);
             (kCGWindowOwnerName, PyStr (py "Slack"));
             (kCGWindowBounds, PyDict [ (Width, PyInt 400) ]) ]
  /\ high_layer (window_layer (without kCGWindowLayer window)) = Ok false
  /\ (forall info, emits (without kCGWindowIsOnscreen window) info ->
        isOnScreen info = PyBool false).
Proof.
  intros window. repeat apply conj.
  - apply (proj1 missing_fields). reflexivity.
  - apply (proj1 (proj2 missing_fields)). reflexivity.
  - apply (proj1 (proj2 (proj2 missing_fields))). reflexivity.
  - apply (proj1 (proj2 (proj2 (proj2 missing_fields)))). reflexivity.
  - apply (proj1 (proj2 (proj2 (proj2 (proj2 missing_fields))))
             _ [ (Height, PyInt 300) ]); reflexivity.
  - apply (proj1 (proj2 (proj2 (proj2 (proj2 (proj2 missing_fields)))))
             _ [ (Width, PyInt 400) ]); reflexivity.
  - apply (proj1 (proj2 (proj2 (proj2 (proj2 (proj2 (proj2
             missing_fields))))))). reflexivity.
  - apply (proj1 (proj2 (proj2 (proj2 (proj2 (proj2 (proj2 (proj2
             missing_fields)))))))). reflexivity.
Defined.

(* ===================================================================== *)
(** ** Checks of the string functions and of the whole run *)
(* ===================================================================== *)

Example py_ascii : py "Code" = [67; 111; 100; 101]%N.
Proof. reflexivity. Qed.

Example py_cjk : py "微信" = [24494; 20449]%N.
Proof. reflexivity. Qed.

Example lower_VSCode : lower (py "VSCode") = py "vscode".
Proof. reflexivity. Qed.

Example strip_blank : strip (py "  	 ") = [] /\ strip (py " a b ") = py "a b".
Proof. split; reflexivity. Qed.

Example str_in_samples :
  str_in (py "ai") (py "domain") = true
  /\ str_in (py "ia") (py "domain") = false
  /\ str_in [] [] = true.
Proof. repeat split; reflexivity. Qed.

(** A short alias of the catalog makes an unrelated name important. *)
Example short_alias :
  is_important (py "Domain Verification") = true
  /\ In (py "ai") important_apps
  /\ substring (lower (py "ai")) (lower (py "Domain Verification")).
Proof.
  repeat apply conj.
  - vm_compute. reflexivity.
  - apply existsb_str_In. vm_compute. reflexivity.
  - apply str_in_spec. vm_compute. reflexivity.
Qed.

(** Three windows in, two out: the Dock is excluded, the chat window comes
    before the titled window of an unknown application. *)
Example three_windows :
  sorted_windows
    (WindowList (Some [ sample_window 5 "Slack" "" 400 300 0;
                        sample_window 6 "Dock" "" 1000 50 0;
                        sample_window 7 "Unknown" "Report.pdf" 200 150 0 ]))
  = Ok (kept_of [ sample_window 5 "Slack" "" 400 300 0;
                  sample_window 7 "Unknown" "Report.pdf" 200 150 0 ])
  /\ map windowId
       (kept_of [ sample_window 5 "Slack" "" 400 300 0;
                  sample_window 7 "Unknown" "Report.pdf" 200 150 0 ])
     = [PyInt 5; PyInt 7].
Proof. split; vm_compute; reflexivity. Qed.

(* ===================================================================== *)
(** ** What every entry of the output satisfies *)
(* ===================================================================== *)

Lemma window_width_bounds (window : pydict) (d : pydict) (v : pyval) :
  window_bounds window = PyDict d -> window_width window = Ok v ->
  v = dict_get d Width (PyInt 0).
Proof.
  unfold window_width. intros ->. cbn [py_get]. congruence.
Qed.

Lemma window_height_bounds (window : pydict) (d : pydict) (v : pyval) :
  window_bounds window = PyDict d -> window_height window = Ok v ->
  v = dict_get d Height (PyInt 0).
Proof.
  unfold window_height. intros ->. cbn [py_get]. congruence.
Qed.

(** X1.  In every entry of the output, [area] is the product of the width
    and the height found in the entry's own [bounds]; both are at least 50,
    so the area is at least 2500. *)
Theorem entry_area (ws : list pydict) (out : list WindowInfo)
        (info : WindowInfo) :
  sorted_windows (WindowList (Some ws)) = Ok out -> In info out ->
  exists w h,
    num_of (dict_get (bounds info) Width (PyInt 0)) = Ok w /\
    num_of (dict_get (bounds info) Height (PyInt 0)) = Ok h /\
    area info = w * h /\ 50 <= w /\ 50 <= h /\ 2500 <= area info.
Proof.
  intros Hs Hin.
  destruct (output_In ws out info Hs Hin) as [window [_ He]].
  destruct (emits_inv window info He) as (w & h & l & d & [wv [Hw Hwn]] &
    [hv [Hh Hhn]] & _ & _ & _ & Hd & _ & _ & Hw50 & Hh50 & _ & _ & Hinfo).
  assert (Hb : bounds info = d) by (apply (f_equal bounds) in Hinfo; exact Hinfo).
  assert (Ha : area info = w * h) by (apply (f_equal area) in Hinfo; exact Hinfo).
  exists w, h. rewrite Hb.
  rewrite <- (window_width_bounds window d wv Hd Hw).
  rewrite <- (window_height_bounds window d hv Hd Hh).
  repeat apply conj; try assumption. rewrite Ha. nia.
Qed.

Lemma entry_area_witness :
  exists w h,
    num_of (dict_get (bounds (nth 0 (windows_sort (kept_of sample_desktop))
                                (mkWindowInfo PyNone [] [] [] PyNone PyNone
                                              false 0)))
                     Width (PyInt 0)) = Ok w /\
    num_of (dict_get (bounds (nth 0 (windows_sort (kept_of sample_desktop))
                                (mkWindowInfo PyNone [] [] [] PyNone PyNone
                                              false 0)))
                     Height (PyInt 0)) = Ok h /\
    area (nth 0 (windows_sort (kept_of sample_desktop))
            (mkWindowInfo PyNone [] [] [] PyNone PyNone false 0)) = w * h /\
    50 <= w /\ 50 <= h /\
    2500 <= area (nth 0 (windows_sort (kept_of sample_desktop))
                    (mkWindowInfo PyNone [] [] [] PyNone PyNone false 0)).
Proof.
  apply (entry_area sample_desktop (windows_sort (kept_of sample_desktop))).
  - vm_compute. reflexivity.
  - vm_compute. left. reflexivity.
Defined.

(** X2.  Every entry of the output has a window number that counts as true
    (so it is not 0 and not [None]), a name that is not empty, and a layer
    that is a number not above 200. *)
Theorem entry_identity (ws : list pydict) (out : list WindowInfo)
        (info : WindowInfo) :
  sorted_windows (WindowList (Some ws)) = Ok out -> In info out ->
  truthy (windowId info) = true /\ windowId info <> PyInt 0 /\
  windowId info <> PyNone /\ appName info <> [] /\
  exists l, num_of (layer info) = Ok l /\ l <= 200.
Proof.
  intros Hs Hin.
  destruct (output_In ws out info Hs Hin) as [window [_ He]].
  destruct (emits_inv window info He) as (w & h & l & d & _ & _ & Hl & Hn & _ &
    _ & Hid & _ & _ & _ & Hl200 & _ & Hinfo).
  assert (Hi : windowId info = window_num window)
    by (apply (f_equal windowId) in Hinfo; exact Hinfo).
  assert (Hly : layer info = window_layer window)
    by (apply (f_equal layer) in Hinfo; exact Hinfo).
  unfold no_identity in Hid. rewrite truthy_py_and, negb_false_iff in Hid.
  apply andb_true_iff in Hid. destruct Hid as [Hname Hnum].
  unfold has_name in Hn. rewrite Hn in Hname.
  assert (Ht : truthy (windowId info) = true) by (rewrite Hi; exact Hnum).
  repeat apply conj.
  - exact Ht.
  - intros E. rewrite E in Ht. discriminate.
  - intros E. rewrite E in Ht. discriminate.
  - intros E. rewrite E in Hname. discriminate.
  - exists l. rewrite Hly. split; assumption.
Qed.

Lemma entry_identity_witness :
  let info := nth 0 (windows_sort (kept_of sample_desktop))
                (mkWindowInfo PyNone [] [] [] PyNone PyNone false 0) in
  truthy (windowId info) = true /\ windowId info <> PyInt 0 /\
  windowId info <> PyNone /\ appName info <> [] /\
  exists l, num_of (layer info) = Ok l /\ l <= 200.
Proof.
  apply (entry_identity sample_desktop (windows_sort (kept_of sample_desktop))).
  - vm_compute. reflexivity.
  - vm_compute. left. reflexivity.
Defined.

(** X3.  Every entry of the output is there for a reason: its application
    is important, or its title has a character that is not white space, or
    the width in its own bounds is above 300 and the height above 200, its
    area being their product and so above 60000. *)
Theorem entry_justified (ws : list pydict) (out : list WindowInfo)
        (info : WindowInfo) :
  sorted_windows (WindowList (Some ws)) = Ok out -> In info out ->
  isImportant info = true
  \/ (exists c, In c (windowTitle info) /\ isspace c = false)
  \/ (exists w h,
        num_of (dict_get (bounds info) Width (PyInt 0)) = Ok w /\
        num_of (dict_get (bounds info) Height (PyInt 0)) = Ok h /\
        300 < w /\ 200 < h /\ area info = w * h /\ 60000 < area info).
Proof.
  intros Hs Hin.
  destruct (output_In ws out info Hs Hin) as [window [_ He]].
  pose proof (emits_isImportant window info He) as Himp.
  destruct (emits_inv window info He) as (w & h & l & d & [wv [Hw Hwn]] &
    [hv [Hh Hhn]] & _ & _ & _ & Hd & _ & _ & _ & _ & _ & Hkeep & Hinfo).
  assert (Ha : area info = w * h) by (apply (f_equal area) in Hinfo; exact Hinfo).
  assert (Hb : bounds info = d) by (apply (f_equal bounds) in Hinfo; exact Hinfo).
  unfold should_include in Hkeep. rewrite !orb_true_iff in Hkeep.
  destruct Hkeep as [[Hi|Hc]|Hr].
  - left. congruence.
  - right. left. apply has_content_spec. exact Hc.
  - right. right. apply is_reasonable_size_spec in Hr.
    exists w, h. rewrite Hb.
    rewrite <- (window_width_bounds window d wv Hd Hw).
    rewrite <- (window_height_bounds window d hv Hd Hh).
    repeat apply conj; try tauto. rewrite Ha. nia.
Qed.

Lemma entry_justified_witness :
  let info := nth 3 (windows_sort (kept_of sample_desktop))
                (mkWindowInfo PyNone [] [] [] PyNone PyNone false 0) in
  isImportant info = true
  \/ (exists c, In c (windowTitle info) /\ isspace c = false)
  \/ (exists w h,
        num_of (dict_get (bounds info) Width (PyInt 0)) = Ok w /\
        num_of (dict_get (bounds info) Height (PyInt 0)) = Ok h /\
        300 < w /\ 200 < h /\ area info = w * h /\ 60000 < area info).
Proof.
  apply (entry_justified sample_desktop
           (windows_sort (kept_of sample_desktop))).
  - vm_compute. reflexivity.
  - vm_compute. do 3 right. left. reflexivity.
Defined.

(* ===================================================================== *)
(** ** The output against the input *)
(* ===================================================================== *)

Lemma for_loop_length (ws : list pydict) (kept : list WindowInfo) :
  for_loop ws [] = Ok kept -> (List.length kept <= List.length ws)%nat.
Proof.
  revert kept. induction ws as [|w0 rest IH]; intros kept.
  - simpl. intros [= <-]. apply Nat.le_refl.
  - rewrite for_loop_cons.
    destruct (loop_body w0) as [r|e]; cbn [bind]; [|discriminate].
    destruct (for_loop rest []) as [k|e]; cbn [bind]; [|discriminate].
    intros [= <-]. specialize (IH k eq_refl).
    destruct r; simpl; lia.
Qed.

(** X4.  When the block reaches the printer, the entries of the output are
    exactly the entries the loop emitted for the windows of the input; there
    are at most as many entries as windows, and none at all when every
    window was dropped. *)
Theorem output_membership (ws : list pydict) (out : list WindowInfo) :
  sorted_windows (WindowList (Some ws)) = Ok out ->
  (forall info,
     In info out <-> exists window, In window ws /\ emits window info)
  /\ (List.length out <= List.length ws)%nat
  /\ ((forall window, In window ws -> drops window) -> out = []).
Proof.
  intros Hs.
  assert (Hiff : forall info,
             In info out <-> exists window, In window ws /\ emits window info).
  { intros info. split.
    - apply (output_In ws out info Hs).
    - intros [window [Hin He]].
      destruct (sorted_windows_inv ws out Hs) as [kept [Hk ->]].
      apply (Permutation_in _ (Permutation_sym (windows_sort_perm kept))).
      exact (for_loop_keeps ws kept window info Hk Hin He). }
  repeat apply conj.
  - exact Hiff.
  - destruct (sorted_windows_inv ws out Hs) as [kept [Hk ->]].
    rewrite (Permutation_length (windows_sort_perm kept)).
    exact (for_loop_length ws kept Hk).
  - intros Hall. destruct out as [|info out]; [reflexivity|].
    destruct (proj1 (Hiff info) (or_introl eq_refl)) as [window [Hin He]].
    destruct (emits_not_drops window info He (Hall window Hin)).
Qed.

Lemma output_membership_witness :
  (forall info,
     In info (windows_sort (kept_of sample_desktop)) <->
     exists window, In window sample_desktop /\ emits window info)
  /\ (List.length (windows_sort (kept_of sample_desktop))
      <= List.length sample_desktop)%nat
  /\ ((forall window, In window sample_desktop -> drops window) ->
      windows_sort (kept_of sample_desktop) = []).
Proof.
  apply (output_membership sample_desktop).
  vm_compute. reflexivity.
Defined.

(** X5.  The loop over a list in two parts keeps what it keeps of the first
    part followed by what it keeps of the second; it raises what the first
    part raises, else what the second part raises. *)
Theorem for_loop_app (ws1 ws2 : list pydict) :
  for_loop (ws1 ++ ws2) [] =
  (kept1 <- for_loop ws1 [] ;;
   kept2 <- for_loop ws2 [] ;;
   Ok (kept1 ++ kept2)).
Proof.
  induction ws1 as [|w0 rest IH].
  - simpl. destruct (for_loop ws2 []); reflexivity.
  - rewrite <- app_comm_cons, !for_loop_cons, IH.
    destruct (loop_body w0) as [r|e]; cbn [bind]; [|reflexivity].
    destruct (for_loop rest []) as [k1|e]; cbn [bind]; [|reflexivity].
    destruct (for_loop ws2 []) as [k2|e]; cbn [bind]; [|reflexivity].
    destruct r; reflexivity.
Qed.

Lemma for_loop_perm (ws ws' : list pydict) :
  Permutation ws ws' ->
  forall kept, for_loop ws [] = Ok kept ->
  exists kept', for_loop ws' [] = Ok kept' /\ Permutation kept kept'.
Proof.
  induction 1 as [|w0 l l' _ IH|a b l|l l' l'' _ IH1 _ IH2]; intros kept.
  - intros H. exists kept. split; [exact H | reflexivity].
  - rewrite !for_loop_cons.
    destruct (loop_body w0) as [r|e]; cbn [bind]; [|discriminate].
    destruct (for_loop l []) as [k|e]; cbn [bind]; [|discriminate].
    intros [= <-]. destruct (IH k eq_refl) as [k' [-> Hp]]. cbn [bind].
    eexists. split; [reflexivity|].
    destruct r; [apply perm_skip|]; exact Hp.
  - rewrite !for_loop_cons.
    destruct (loop_body b) as [rb|e]; cbn [bind]; [|discriminate].
    destruct (loop_body a) as [ra|e]; cbn [bind]; [|discriminate].
    destruct (for_loop l []) as [k|e]; cbn [bind]; [|discriminate].
    intros [= <-]. eexists. split; [reflexivity|].
    destruct ra, rb; try reflexivity. apply perm_swap.
  - intros H. destruct (IH1 kept H) as [k' [H' Hp]].
    destruct (IH2 k' H') as [k'' [H'' Hp']].
    exists k''. split; [exact H'' | exact (Permutation_trans Hp Hp')].
Qed.

(** X6.  The order in which the window server lists the windows decides
    nothing but the order of entries with equal keys: if the block reaches
    the printer on one listing, it does so on every rearrangement of it,
    with a rearrangement of the same entries. *)
Theorem listing_order (ws ws' : list pydict) (out : list WindowInfo) :
  Permutation ws ws' ->
  sorted_windows (WindowList (Some ws)) = Ok out ->
  exists out',
    sorted_windows (WindowList (Some ws')) = Ok out' /\ Permutation out out'.
Proof.
  intros Hp Hs.
  destruct (sorted_windows_inv ws out Hs) as [kept [Hk ->]].
  destruct (for_loop_perm ws ws' Hp kept Hk) as [kept' [Hk' Hpk]].
  exists (windows_sort kept'). split.
  - unfold sorted_windows. simpl. rewrite Hk'. reflexivity.
  - rewrite (windows_sort_perm kept), (windows_sort_perm kept'). exact Hpk.
Qed.

Lemma listing_order_witness :
  exists out',
    sorted_windows (WindowList (Some (rev sample_desktop))) = Ok out' /\
    Permutation (windows_sort (kept_of sample_desktop)) out'.
Proof.
  apply (listing_order sample_desktop (rev sample_desktop)).
  - apply Permutation_rev.
  - vm_compute. reflexivity.
Defined.

(* ===================================================================== *)
(** ** Which windows make the loop raise *)
(* ===================================================================== *)

Lemma num_of_raise (v : pyval) (e : exn) : num_of v = Raise e -> e = TypeError.
Proof. destruct v; simpl; congruence. Qed.

Lemma str_of_raise (v : pyval) (e : exn) :
  str_of v = Raise e -> e = AttributeError.
Proof. destruct v; simpl; congruence. Qed.

Lemma py_get_raise (v : pyval) (key : pystr) (default : pyval) (e : exn) :
  py_get v key default = Raise e -> e = AttributeError.
Proof. destruct v; simpl; congruence. Qed.

Lemma loop_body_raise_kind (window : pydict) (e : exn) :
  loop_body window = Raise e ->
  (e = AttributeError \/ e = TypeError)
  /\ no_identity window = false /\ is_system_app window = false.
Proof.
  unfold loop_body, continue, too_small, high_layer, window_width,
    window_height.
  destruct (no_identity window); [discriminate|].
  destruct (is_system_app window); [discriminate|].
  intros H. split; [|split; reflexivity]. revert H.
  destruct (window_bounds window) as [| | | |d]; cbn [py_get bind];
    try (intros [= <-]; left; reflexivity).
  destruct (num_of (dict_get d Width (PyInt 0))) as [w|e1] eqn:Ew; cbn [bind];
    [|intros [= <-]; right; exact (num_of_raise _ _ Ew)].
  destruct (w <? 50); cbn [bind]; [discriminate|].
  destruct (num_of (dict_get d Height (PyInt 0))) as [h|e1] eqn:Eh; cbn [bind];
    [|intros [= <-]; right; exact (num_of_raise _ _ Eh)].
  destruct (h <? 50); [discriminate|].
  destruct (num_of (window_layer window)) as [l|e1] eqn:El; cbn [bind];
    [|intros [= <-]; right; exact (num_of_raise _ _ El)].
  destruct (l >? 200); [discriminate|].
  destruct (str_of (app_name window)) as [name|e1] eqn:En; cbn [bind];
    [|intros [= <-]; left; exact (str_of_raise _ _ En)].
  destruct (str_of (window_title window)) as [title|e1] eqn:Et; cbn [bind];
    [|intros [= <-]; left; exact (str_of_raise _ _ Et)].
  destruct (negb _); cbn [dict_copy bind]; discriminate.
Qed.

(** X7.  The loop raises only [AttributeError] or [TypeError], and only for
    a window that passed the identity and the system tests.  For such a
    window it raises when the bounds are not a dictionary; else when the
    width is not a number; else, the width being at least 50, when the
    height is not a number; else, both being at least 50, when the layer is
    not a number; else, the layer being at most 200, when the name is not a
    string; else when the title is not a string. *)
Theorem loop_body_raises :
  (forall window e,
     loop_body window = Raise e ->
     (e = AttributeError \/ e = TypeError)
     /\ no_identity window = false /\ is_system_app window = false)
  /\ (forall window,
        no_identity window = false -> is_system_app window = false ->
        (forall d, window_bounds window <> PyDict d) ->
        loop_body window = Raise AttributeError)
  /\ (forall window v e,
        no_identity window = false -> is_system_app window = false ->
        window_width window = Ok v -> num_of v = Raise e ->
        loop_body window = Raise e)
  /\ (forall window w v e,
        no_identity window = false -> is_system_app window = false ->
        has_width window w -> 50 <= w ->
        window_height window = Ok v -> num_of v = Raise e ->
        loop_body window = Raise e)
  /\ (forall window w h e,
        no_identity window = false -> is_system_app window = false ->
        has_width window w -> 50 <= w -> has_height window h -> 50 <= h ->
        num_of (window_layer window) = Raise e ->
        loop_body window = Raise e)
  /\ (forall window w h l e,
        no_identity window = false -> is_system_app window = false ->
        has_width window w -> 50 <= w -> has_height window h -> 50 <= h ->
        has_layer window l -> l <= 200 ->
        str_of (app_name window) = Raise e ->
        loop_body window = Raise e)
  /\ (forall window w h l name e,
        no_identity window = false -> is_system_app window = false ->
        has_width window w -> 50 <= w -> has_height window h -> 50 <= h ->
        has_layer window l -> l <= 200 -> has_name window name ->
        str_of (window_title window) = Raise e ->
        loop_body window = Raise e).
Proof.
  repeat apply conj.
  - exact loop_body_raise_kind.
  - intros window Hid Hsys Hb. unfold loop_body, window_width. rewrite Hid, Hsys.
    destruct (window_bounds window) as [| | | |d]; try reflexivity.
    destruct (Hb d eq_refl).
  - intros window v e Hid Hsys Hw Hv.
    destruct (window_width_height window v Hw) as [hv Hh].
    unfold loop_body, too_small. rewrite Hid, Hsys, Hw, Hh. cbn [bind].
    rewrite Hv. reflexivity.
  - intros window w v e Hid Hsys [wv [Hw Hwn]] Hw50 Hh Hv.
    unfold loop_body, too_small. rewrite Hid, Hsys, Hw, Hh. cbn [bind].
    rewrite Hwn. cbn [bind].
    replace (w <? 50) with false by (symmetry; apply Z.ltb_ge; exact Hw50).
    rewrite Hv. reflexivity.
  - intros window w h e Hid Hsys [wv [Hw Hwn]] Hw50 [hv [Hh Hhn]] Hh50 Hl.
    unfold loop_body, too_small, high_layer.
    rewrite Hid, Hsys, Hw, Hh. cbn [bind]. rewrite Hwn. cbn [bind].
    replace (w <? 50) with false by (symmetry; apply Z.ltb_ge; exact Hw50).
    rewrite Hhn. cbn [bind].
    replace (h <? 50) with false by (symmetry; apply Z.ltb_ge; exact Hh50).
    rewrite Hl. reflexivity.
  - intros window w h l e Hid Hsys [wv [Hw Hwn]] Hw50 [hv [Hh Hhn]] Hh50 Hl
      Hl200 Hn.
    unfold loop_body, too_small, high_layer. unfold has_layer in Hl.
    rewrite Hid, Hsys, Hw, Hh. cbn [bind]. rewrite Hwn. cbn [bind].
    replace (w <? 50) with false by (symmetry; apply Z.ltb_ge; exact Hw50).
    rewrite Hhn. cbn [bind].
    replace (h <? 50) with false by (symmetry; apply Z.ltb_ge; exact Hh50).
    rewrite Hl. cbn [bind].
    replace (l >? 200) with false
      by (symmetry; rewrite Z.gtb_ltb; apply Z.ltb_ge; exact Hl200).
    rewrite Hn. reflexivity.
  - intros window w h l name e Hid Hsys [wv [Hw Hwn]] Hw50 [hv [Hh Hhn]] Hh50
      Hl Hl200 Hn Ht.
    unfold loop_body, too_small, high_layer.
    unfold has_layer in Hl. unfold has_name in Hn.
    rewrite Hid, Hsys, Hw, Hh. cbn [bind]. rewrite Hwn. cbn [bind].
    replace (w <? 50) with false by (symmetry; apply Z.ltb_ge; exact Hw50).
    rewrite Hhn. cbn [bind].
    replace (h <? 50) with false by (symmetry; apply Z.ltb_ge; exact Hh50).
    rewrite Hl. cbn [bind].
    replace (l >? 200) with false
      by (symmetry; rewrite Z.gtb_ltb; apply Z.ltb_ge; exact Hl200).
    rewrite Hn. cbn [str_of bind]. rewrite Ht. reflexivity.
Qed.

Lemma loop_body_raises_witness :
  ((AttributeError = AttributeError \/ AttributeError = TypeError)
   /\ no_identity (nth 1 broken_desktop []) = false
   /\ is_system_app (nth 1 broken_desktop []) = false)
  /\ loop_body (raw_window (PyInt 1) (PyStr (py "Notes")) (PyStr (py "Todo"))
                  (PyInt 3) (PyInt 0)) = Raise AttributeError
  /\ loop_body (raw_window (PyInt 1) (PyStr (py "Notes")) (PyStr (py "Todo"))
                  (size (PyStr (py "wide")) (PyInt 300)) (PyInt 0))
     = Raise TypeError
  /\ loop_body (raw_window (PyInt 1) (PyStr (py "Notes")) (PyStr (py "Todo"))
                  (size (PyInt 400) PyNone) (PyInt 0))
     = Raise TypeError
  /\ loop_body (raw_window (PyInt 1) (PyStr (py "Notes")) (PyStr (py "Todo"))
                  (size (PyInt 400) (PyInt 300)) (PyStr (py "top")))
     = Raise TypeError
  /\ loop_body (raw_window (PyInt 1) (PyInt 7) (PyStr (py "Todo"))
                  (size (PyInt 400) (PyInt 300)) (PyInt 0))
     = Raise AttributeError
  /\ loop_body (raw_window (PyInt 1) (PyStr (py "Notes")) PyNone
                  (size (PyInt 400) (PyInt 300)) (PyInt 0))
     = Raise AttributeError.
Proof.
  repeat apply conj.
  - apply (proj1 loop_body_raises (nth 1 broken_desktop []) AttributeError).
    reflexivity.
  - apply (proj1 loop_body_raises (nth 1 broken_desktop []) AttributeError).
    reflexivity.
  - apply (proj1 loop_body_raises (nth 1 broken_desktop []) AttributeError).
    reflexivity.
  - apply (proj1 (proj2 loop_body_raises)); try reflexivity.
    intros d H. vm_compute in H. discriminate H.
  - apply (proj1 (proj2 (proj2 loop_body_raises)) _ (PyStr (py "wide")));
      reflexivity.
  - apply (proj1 (proj2 (proj2 (proj2 loop_body_raises))) _ 400 PyNone);
      try reflexivity; try lia.
    exists (PyInt 400). split; reflexivity.
  - apply (proj1 (proj2 (proj2 (proj2 (proj2 loop_body_raises)))) _ 400 300);
      try reflexivity; try lia.
    + exists (PyInt 400). split; reflexivity.
    + exists (PyInt 300). split; reflexivity.
  - apply (proj1 (proj2 (proj2 (proj2 (proj2 (proj2 loop_body_raises)))))
             _ 400 300 0);
      try reflexivity; try lia.
    + exists (PyInt 400). split; reflexivity.
    + exists (PyInt 300). split; reflexivity.
  - apply (proj2 (proj2 (proj2 (proj2 (proj2 (proj2 loop_body_raises)))))
             _ 400 300 0 (py "Notes"));
      try reflexivity; try lia.
    + exists (PyInt 400). split; reflexivity.
    + exists (PyInt 300). split; reflexivity.
Defined.

(* ===================================================================== *)
(** ** Titles and names *)
(* ===================================================================== *)

(** X8.  For a window that passed the four guards, whose application is not
    important and which is not both wider than 300 and higher than 200, the
    title alone decides: the window is dropped exactly when every character
    of the title is white space (in particular when the title is empty),
    and emitted otherwise. *)
Theorem blank_title (window : pydict) (w h l : Z) (name title : pystr) :
  has_width window w -> has_height window h -> has_layer window l ->
  has_name window name -> has_title window title ->
  no_identity window = false -> is_system_app window = false ->
  50 <= w -> 50 <= h -> l <= 200 ->
  is_important name = false -> ~ (300 < w /\ 200 < h) ->
  (drops window <-> (forall c, In c title -> isspace c = true))
  /\ ((exists info, emits window info) <->
      (exists c, In c title /\ isspace c = false)).
Proof.
  intros Hw Hh Hl Hn Ht Hid Hsys Hw50 Hh50 Hl200 Himp Hsize.
  destruct (loop_body_typed window w h l name title Hw Hh Hl Hn Ht)
    as [d [_ Hbody]].
  rewrite Hid, Hsys, Himp in Hbody.
  replace (w <? 50) with false in Hbody by (symmetry; apply Z.ltb_ge; lia).
  replace (h <? 50) with false in Hbody by (symmetry; apply Z.ltb_ge; lia).
  replace (l >? 200) with false in Hbody
    by (symmetry; rewrite Z.gtb_ltb; apply Z.ltb_ge; lia).
  assert (Hr : is_reasonable_size w h = false).
  { destruct (is_reasonable_size w h) eqn:E; [|reflexivity].
    apply is_reasonable_size_spec in E. contradiction. }
  rewrite Hr in Hbody. unfold should_include in Hbody.
  cbn [orb] in Hbody. rewrite orb_false_r in Hbody.
  unfold drops, emits. rewrite Hbody. rewrite <- has_content_spec.
  destruct (has_content title) eqn:Ec; cbn [negb].
  - apply has_content_spec in Ec. destruct Ec as [c [Hin Hc]].
    split; split; try discriminate; eauto.
    intros Hall. rewrite (Hall c Hin) in Hc. discriminate.
  - split; split; try reflexivity; try discriminate.
    + intros _ c Hin. destruct (isspace c) eqn:E; [reflexivity|].
      assert (Hc : has_content title = true)
        by (apply has_content_spec; exists c; split; assumption).
      congruence.
    + intros [info H]. discriminate H.
Qed.

Lemma blank_title_witness :
  let window := sample_window 7 "RandomTool" "   " 100 100 0 in
  (drops window <-> (forall c, In c (py "   ") -> isspace c = true))
  /\ ((exists info, emits window info) <->
      (exists c, In c (py "   ") /\ isspace c = false)).
Proof.
  apply (blank_title (sample_window 7 "RandomTool" "   " 100 100 0)
           100 100 0 (py "RandomTool") (py "   "));
    try reflexivity; try lia.
  - exists (PyInt 100). split; reflexivity.
  - exists (PyInt 100). split; reflexivity.
Defined.

(* ===================================================================== *)
(** ** Lower case *)
(* ===================================================================== *)

Lemma lower_from_app (l before s : pystr) :
  exists done, lower_from before (l ++ s)
               = done ++ lower_from (rev l ++ before) s.
Proof.
  revert before. induction l as [|c l IH]; intros before.
  - exists []. reflexivity.
  - destruct (IH (c :: before)) as [done Hd].
    exists (lower_at before c (l ++ s) ++ done).
    cbn [app lower_from rev]. rewrite Hd, <- !app_assoc. reflexivity.
Qed.

Lemma lower_from_no_sigma (a before r : pystr) :
  forallb (fun c => negb (c =? 931)%N) a = true ->
  lower_from before (a ++ r)
  = flat_map lower_full a ++ lower_from (rev a ++ before) r.
Proof.
  revert before. induction a as [|c a IH]; intros before Ha.
  - reflexivity.
  - cbn [forallb] in Ha. apply andb_true_iff in Ha. destruct Ha as [Hc Ha].
    cbn [app lower_from rev flat_map]. rewrite (IH (c :: before) Ha).
    unfold lower_at. apply negb_true_iff in Hc. rewrite Hc.
    rewrite <- !app_assoc. reflexivity.
Qed.

Lemma lower_no_sigma (a : pystr) :
  forallb (fun c => negb (c =? 931)%N) a = true ->
  lower a = flat_map lower_full a.
Proof.
  intros Ha. unfold lower.
  rewrite <- (app_nil_r a) at 1.
  rewrite (lower_from_no_sigma a [] [] Ha). cbn [lower_from].
  apply app_nil_r.
Qed.

(** A string without capital sigma keeps its lower-case form inside every
    longer string. *)
Lemma lower_inside (l a r : pystr) :
  forallb (fun c => negb (c =? 931)%N) a = true ->
  substring (lower a) (lower (l ++ a ++ r)).
Proof.
  intros Ha. unfold lower at 2.
  destruct (lower_from_app l [] (a ++ r)) as [done ->].
  rewrite (lower_from_no_sigma a _ r Ha), <- (lower_no_sigma a Ha).
  eexists done, _. reflexivity.
Qed.

Lemma catalog_no_sigma (app : pystr) :
  In app important_apps -> forallb (fun c => negb (c =? 931)%N) app = true.
Proof.
  assert (H : forallb (forallb (fun c => negb (c =? 931)%N)) important_apps
              = true) by (vm_compute; reflexivity).
  rewrite forallb_forall in H. exact (H app).
Qed.

Lemma lookup_lower_spec (t : list (N * N * N * N)) (c : N) :
  lookup_lower t c = c \/
  exists lo hi step target,
    In (lo, hi, step, target) t /\ (lo <= c <= hi)%N /\
    ((c - lo) mod step = 0)%N /\ lookup_lower t c = (target + (c - lo))%N.
Proof.
  induction t as [|[[[lo hi] step] target] t IH]; [left; reflexivity|].
  cbn [lookup_lower].
  destruct (N.ltb_spec c lo) as [Hlt|Hge]; [left; reflexivity|].
  destruct (N.leb_spec c hi) as [Hle|Hgt]; cbn [andb].
  - destruct (N.eqb_spec ((c - lo) mod step) 0) as [Hm|Hm].
    + right. exists lo, hi, step, target.
      repeat apply conj; auto. left; reflexivity.
    + destruct IH as [IH|(lo' & hi' & st' & tg' & Hin & H)]; [left; exact IH|].
      right. exists lo', hi', st', tg'. split; [right; exact Hin | exact H].
  - destruct IH as [IH|(lo' & hi' & st' & tg' & Hin & H)]; [left; exact IH|].
    right. exists lo', hi', st', tg'. split; [right; exact Hin | exact H].
Qed.

Lemma entry_targets_In (lo hi step target c : N) :
  step <> 0%N -> (lo <= c <= hi)%N -> ((c - lo) mod step = 0)%N ->
  In (target + (c - lo))%N (entry_targets (lo, hi, step, target)).
Proof.
  intros Hs [Hlo Hhi] Hm. unfold entry_targets.
  apply in_map_iff. exists (N.to_nat ((c - lo) / step)). split.
  - rewrite N2Nat.id. f_equal.
    pose proof (N.div_mod (c - lo) step Hs) as D.
    rewrite Hm, N.add_0_r in D. symmetry. exact D.
  - assert (H : ((c - lo) / step <= (hi - lo) / step)%N)
      by (apply N.Div0.div_le_mono; lia).
    remember ((c - lo) / step)%N as a. remember ((hi - lo) / step)%N as b.
    clear - H. apply in_seq. lia.
Qed.

Lemma lower_cp_is_lower (c : N) :
  c <> 931%N -> c <> 304%N -> is_lower (lower_cp c) = true.
Proof.
  intros H1 H2.
  assert (Htable : forallb (fun e => let '(lo, hi, step, target) := e in
                              negb (step =? 0)%N
                              && forallb is_lower (entry_targets e))
                     lower_table = true) by (vm_compute; reflexivity).
  rewrite forallb_forall in Htable.
  unfold lower_cp. destruct (lookup_lower_spec lower_table c)
    as [E|(lo & hi & step & target & Hin & Hr & Hm & E)].
  - rewrite E. unfold is_lower, lower_cp. rewrite E, N.eqb_refl.
    apply N.eqb_neq in H1, H2. rewrite H1, H2. reflexivity.
  - rewrite E. specialize (Htable _ Hin). cbn beta iota in Htable.
    apply andb_true_iff in Htable. destruct Htable as [Hs Ht].
    apply negb_true_iff, N.eqb_neq in Hs.
    rewrite forallb_forall in Ht. apply Ht.
    apply entry_targets_In; assumption.
Qed.

Lemma lower_at_is_lower (before : pystr) (c : N) (after : pystr) :
  forallb is_lower (lower_at before c after) = true.
Proof.
  unfold lower_at, lower_full.
  destruct (N.eqb_spec c 931) as [_|H1];
    [destruct (final_sigma before after); vm_compute; reflexivity|].
  destruct (N.eqb_spec c 304) as [_|H2]; [vm_compute; reflexivity|].
  cbn [forallb]. rewrite (lower_cp_is_lower c H1 H2). reflexivity.
Qed.

Lemma lower_from_is_lower (before s : pystr) :
  forallb is_lower (lower_from before s) = true.
Proof.
  revert before. induction s as [|c s IH]; intros before; [reflexivity|].
  cbn [lower_from]. rewrite forallb_app, lower_at_is_lower, IH. reflexivity.
Qed.

Lemma lower_fixed (t : pystr) : forallb is_lower t = true -> lower t = t.
Proof.
  intros Ht. rewrite lower_no_sigma.
  - induction t as [|d t IH]; [reflexivity|].
    cbn [forallb] in Ht. apply andb_true_iff in Ht. destruct Ht as [Hd Ht].
    cbn [flat_map]. rewrite (IH Ht).
    unfold is_lower in Hd. rewrite !andb_true_iff in Hd.
    destruct Hd as [[_ H304] Hcp].
    apply negb_true_iff in H304. apply N.eqb_eq in Hcp.
    unfold lower_full. rewrite H304, Hcp. reflexivity.
  - rewrite forallb_forall in *. intros d Hd. specialize (Ht d Hd).
    unfold is_lower in Ht. rewrite !andb_true_iff in Ht. tauto.
Qed.

Lemma lower_idem (s : pystr) : lower (lower s) = lower s.
Proof. apply lower_fixed. apply lower_from_is_lower. Qed.

(** X9.  Lower-casing a lower-cased string changes nothing, so the
    classifier does not see letter case: a name and its lower-case form get
    the same flag, and lower-casing the catalog changes no flag. *)
Theorem classifier_ignores_case :
  (forall s, lower (lower s) = lower s)
  /\ (forall name, is_important (lower name) = is_important name)
  /\ (forall apps name, any_app (map lower apps) name = any_app apps name).
Proof.
  repeat apply conj.
  - exact lower_idem.
  - intros name. unfold is_important, any_app. rewrite lower_idem. reflexivity.
  - intros apps name. unfold any_app. induction apps as [|a apps IH].
    + reflexivity.
    + cbn [map existsb]. rewrite lower_idem, IH. reflexivity.
Qed.

(** X10.  Every name that contains a catalog entry is important, also when
    the entry stands in it in another letter case; and so is every name
    that occurs inside a catalog entry.  So the short entry "ai" makes
    every name with these two letters in a row important. *)
Theorem classifier_containment :
  (forall app l r,
     In app important_apps -> is_important (l ++ app ++ r) = true)
  /\ (forall app v l r,
        In app important_apps ->
        forallb (fun c => negb (c =? 931)%N) v = true ->
        lower v = lower app ->
        is_important (l ++ v ++ r) = true)
  /\ (forall app l name r,
        In app important_apps -> app = l ++ name ++ r ->
        is_important name = true)
  /\ (forall l r, is_important (l ++ py "ai" ++ r) = true).
Proof.
  assert (H2 : forall app v l r,
             In app important_apps ->
             forallb (fun c => negb (c =? 931)%N) v = true ->
             lower v = lower app ->
             is_important (l ++ v ++ r) = true).
  { intros app v l r Hin Hv Hl. apply any_app_spec. exists app.
    split; [exact Hin|]. left. rewrite <- Hl. apply lower_inside, Hv. }
  assert (H1 : forall app l r,
             In app important_apps -> is_important (l ++ app ++ r) = true).
  { intros app l r Hin.
    apply (H2 app app l r Hin (catalog_no_sigma app Hin) eq_refl). }
  repeat apply conj.
  - exact H1.
  - exact H2.
  - intros app l name r Hin E. apply any_app_spec. exists app.
    split; [exact Hin|]. right. rewrite E. apply lower_inside.
    pose proof (catalog_no_sigma app Hin) as Hs. rewrite E in Hs.
    rewrite !forallb_app in Hs. apply andb_true_iff in Hs.
    destruct Hs as [_ Hs]. apply andb_true_iff in Hs. tauto.
  - intros l r. apply H1. apply existsb_str_In. vm_compute. reflexivity.
Qed.

Lemma classifier_containment_witness :
  is_important (py "Retail Manager") = true
  /\ is_important (py "My SLAC" ++ [8490%N] ++ py " Client") = true
  /\ is_important (py "e") = true.
Proof.
  repeat apply conj.
  - apply (proj1 classifier_containment (py "ai") (py "Ret")
             (py "l Manager")).
    apply existsb_str_In. vm_compute. reflexivity.
  - apply (proj1 (proj2 classifier_containment) (py "slack")
             (py "SLAC" ++ [8490%N]) (py "My ") (py " Client")).
    + apply existsb_str_In. vm_compute. reflexivity.
    + reflexivity.
    + vm_compute. reflexivity.
  - apply (proj1 (proj2 (proj2 classifier_containment)) (py "Code")
             (py "Cod") (py "e") []).
    + apply existsb_str_In. vm_compute. reflexivity.
    + reflexivity.
Defined.

(* ===================================================================== *)
(** ** More on the sort *)
(* ===================================================================== *)

Lemma StronglySorted_app (R : WindowInfo -> WindowInfo -> Prop)
      (l1 l2 : list WindowInfo) :
  StronglySorted R l1 -> StronglySorted R l2 ->
  (forall x y, In x l1 -> In y l2 -> R x y) ->
  StronglySorted R (l1 ++ l2).
Proof.
  induction 1 as [|a l1 Hs IH Ha]; intros H2 Hc; simpl; [exact H2|].
  constructor.
  - apply IH; [exact H2|]. intros x y Hx Hy. apply Hc; [right|]; assumption.
  - apply Forall_app. split; [exact Ha|].
    apply Forall_forall. intros y Hy. apply Hc; [left; reflexivity | exact Hy].
Qed.

Lemma windows_sort_sorted (l : list WindowInfo) :
  StronglySorted (StableSort.le sort_key key_compare) (windows_sort l).
Proof.
  apply StableSortFacts.sort_sorted.
  - apply key_compare_eq.
  - apply key_compare_antisym.
  - apply key_compare_trans.
Qed.

Lemma windows_sort_stable (k : bool * pystr) (l : list WindowInfo) :
  filter (StableSort.same_key sort_key key_compare k) (windows_sort l)
  = filter (StableSort.same_key sort_key key_compare k) l.
Proof. apply StableSortFacts.sort_stable, key_compare_eq. Qed.

Lemma same_key_flag (k : bool * pystr) (x : WindowInfo) :
  StableSort.same_key sort_key key_compare k x = true ->
  isImportant x = negb (fst k).
Proof.
  intros H.
  apply (StableSortFacts.same_key_spec sort_key key_compare key_compare_eq) in H.
  rewrite <- H. unfold sort_key. cbn [fst]. rewrite negb_involutive.
  reflexivity.
Qed.

Lemma filter_key_split (k : bool * pystr) (l : list WindowInfo) :
  filter (StableSort.same_key sort_key key_compare k) (filter isImportant l)
  ++ filter (StableSort.same_key sort_key key_compare k)
       (filter (fun x => negb (isImportant x)) l)
  = filter (StableSort.same_key sort_key key_compare k) l.
Proof.
  induction l as [|x l IH]; [reflexivity|]. simpl.
  destruct (isImportant x) eqn:Ex; cbn [negb]; simpl.
  - destruct (StableSort.same_key sort_key key_compare k x); simpl;
      rewrite IH; reflexivity.
  - destruct (StableSort.same_key sort_key key_compare k x) eqn:Ek;
      [|exact IH].
    assert (Hnil : filter (StableSort.same_key sort_key key_compare k)
                     (filter isImportant l) = []).
    { pose proof (same_key_flag k x Ek) as Hx. rewrite Ex in Hx.
      clear -Hx. induction l as [|y l IHl]; [reflexivity|]. simpl.
      destruct (isImportant y) eqn:Ey; [|exact IHl]. simpl.
      destruct (StableSort.same_key sort_key key_compare k y) eqn:Eky;
        [|exact IHl].
      pose proof (same_key_flag k y Eky). congruence. }
    rewrite Hnil in *. simpl in *. rewrite IH. reflexivity.
Qed.

(** X11.  The sorted list is the sorted important entries followed by the
    sorted entries that are not important: sorting the whole list and
    sorting the two groups apart give the same result. *)
Theorem windows_sort_blocks (l : list WindowInfo) :
  windows_sort l =
  windows_sort (filter isImportant l)
  ++ windows_sort (filter (fun x => negb (isImportant x)) l).
Proof.
  symmetry.
  apply (StableSortFacts.sort_unique sort_key key_compare
           key_compare_eq key_compare_antisym).
  - apply StronglySorted_app; try apply windows_sort_sorted.
    intros x y Hx Hy.
    apply (Permutation_in _ (windows_sort_perm _)), filter_In in Hx.
    apply (Permutation_in _ (windows_sort_perm _)), filter_In in Hy.
    destruct Hx as [_ Hx]. destruct Hy as [_ Hy].
    apply negb_true_iff in Hy.
    apply le_in_order. unfold in_order. rewrite Hx, Hy.
    split; intros; discriminate.
  - apply windows_sort_sorted.
  - intros k. rewrite filter_app, !windows_sort_stable.
    apply filter_key_split.
Qed.

(** X12.  A list that is already in order comes out of the sort unchanged;
    so sorting twice is sorting once. *)
Theorem windows_sort_fixed :
  (forall l, (forall x y, before x y l -> in_order x y) -> windows_sort l = l)
  /\ (forall l, windows_sort (windows_sort l) = windows_sort l).
Proof.
  assert (H : forall l, StronglySorted (StableSort.le sort_key key_compare) l ->
                        windows_sort l = l).
  { intros l Hl.
    apply (StableSortFacts.sort_unique sort_key key_compare
             key_compare_eq key_compare_antisym).
    - apply windows_sort_sorted.
    - exact Hl.
    - intros k. apply windows_sort_stable. }
  split.
  - intros l Hl. apply H. apply StronglySorted_before.
    intros x y Hb. apply le_in_order, Hl, Hb.
  - intros l. apply H, windows_sort_sorted.
Qed.

Lemma windows_sort_fixed_witness :
  windows_sort (kept_of [ sample_window 8 "Arc" "News" 200 150 0;
                          sample_window 5 "Slack" "" 400 300 0;
                          sample_window 7 "Unknown" "Report.pdf" 200 150 0 ])
  = kept_of [ sample_window 8 "Arc" "News" 200 150 0;
              sample_window 5 "Slack" "" 400 300 0;
              sample_window 7 "Unknown" "Report.pdf" 200 150 0 ].
Proof.
  apply (proj1 windows_sort_fixed).
  apply StronglySorted_before.
  vm_compute kept_of.
  repeat constructor; apply le_in_order; unfold in_order; cbn [isImportant appName];
    split; intros; try discriminate; try reflexivity;
    vm_compute; discriminate.
Defined.

(* ===================================================================== *)
(** ** Entries and their windows *)
(* ===================================================================== *)

(** X13.  Every entry of the output repeats, unchanged, the number, name,
    title, whole bounds dictionary (position keys included, in their
    order), and layer of one window of the input, and that window's
    on-screen value or [False] when it has none. *)
Theorem entry_copies_window (ws : list pydict) (out : list WindowInfo)
        (info : WindowInfo) :
  sorted_windows (WindowList (Some ws)) = Ok out -> In info out ->
  exists window,
    In window ws /\
    lookup window kCGWindowNumber = Some (windowId info) /\
    lookup window kCGWindowOwnerName = Some (PyStr (appName info)) /\
    window_title window = PyStr (windowTitle info) /\
    lookup window kCGWindowBounds = Some (PyDict (bounds info)) /\
    window_layer window = layer info /\
    window_onscreen window = isOnScreen info.
Proof.
  intros Hs Hin.
  destruct (output_In ws out info Hs Hin) as [window [Hw He]].
  destruct (emits_inv window info He) as (w & h & l & d & [wv [Hwd Hwn]] & _ &
    _ & Hn & Ht & Hd & Hid & _ & Hw50 & _ & _ & _ & Hinfo).
  exists window.
  assert (Hi : windowId info = window_num window)
    by (apply (f_equal windowId) in Hinfo; exact Hinfo).
  assert (Hb : bounds info = d) by (apply (f_equal bounds) in Hinfo; exact Hinfo).
  assert (Hly : layer info = window_layer window)
    by (apply (f_equal layer) in Hinfo; exact Hinfo).
  assert (Ho : isOnScreen info = window_onscreen window)
    by (apply (f_equal isOnScreen) in Hinfo; exact Hinfo).
  unfold no_identity in Hid. rewrite truthy_py_and, negb_false_iff in Hid.
  apply andb_true_iff in Hid. destruct Hid as [Hname Hnum].
  repeat apply conj; try congruence.
  - rewrite Hi. unfold window_num, dict_get in *.
    destruct (lookup window kCGWindowNumber); [reflexivity | discriminate].
  - unfold has_name, app_name, dict_get in Hn.
    destruct (lookup window kCGWindowOwnerName); [congruence | discriminate].
  - rewrite Hb. unfold window_bounds, dict_get in Hd.
    destruct (lookup window kCGWindowBounds) as [v|] eqn:E; [congruence|].
    injection Hd as <-.
    rewrite (window_width_bounds window [] wv) in Hwn.
    + cbn in Hwn. injection Hwn as <-. lia.
    + unfold window_bounds, dict_get. rewrite E. reflexivity.
    + exact Hwd.
Qed.

Lemma entry_copies_window_witness :
  let info := nth 0 (windows_sort (kept_of sample_desktop))
                (mkWindowInfo PyNone [] [] [] PyNone PyNone false 0) in
  exists window,
    In window sample_desktop /\
    lookup window kCGWindowNumber = Some (windowId info) /\
    lookup window kCGWindowOwnerName = Some (PyStr (appName info)) /\
    window_title window = PyStr (windowTitle info) /\
    lookup window kCGWindowBounds = Some (PyDict (bounds info)) /\
    window_layer window = layer info /\
    window_onscreen window = isOnScreen info.
Proof.
  apply (entry_copies_window sample_desktop
           (windows_sort (kept_of sample_desktop))).
  - vm_compute. reflexivity.
  - vm_compute. left. reflexivity.
Defined.

